(** * PrEx (promoter extraction): a shallow embedding of [prex.py]

    The development follows the script top to bottom: the identifier
    tables, [decode_id] with the regular expressions it searches for,
    the pandas operations [validate_identifier] and [do_gff3_stuff]
    perform on the annotation, the [Region] class and the per-identifier
    loop of [main].

    Conventions.
    - Python [str] values are byte strings ([string]); the character
      classes of the script only mention ASCII ranges.
    - Python integers are unbounded ([Z]).
    - A call either returns or raises; together with what it printed this
      is the type [M].  Nothing in the script catches an exception, so a
      raised exception ends the run. *)

From Stdlib Require Import ZArith Ascii String List Bool Lia DecimalString.
From stdpp Require Import base option list gmap strings.

Import ListNotations.
Local Open Scope string_scope.
Local Open Scope list_scope.
Local Open Scope Z_scope.

(* ===================================================================== *)
(** * Python values, exceptions and printing                              *)
(* ===================================================================== *)

(** The values that occur in annotation cells and in [Region] fields. *)
Inductive pyval : Type :=
| PNone
| PNaN
| PInt (z : Z)
| PStr (s : string).

#[global] Instance pyval_eq_dec : EqDecision pyval.
Proof. solve_decision. Defined.

(** [bool(v)]: [None], [0] and [''] are falsy; a float NaN is truthy. *)
Definition truthy (v : pyval) : bool :=
  match v with
  | PNone => false
  | PNaN => true
  | PInt z => negb (z =? 0)
  | PStr s => negb (String.eqb s EmptyString)
  end.

(** pandas' notion of a missing value ([dropna], [isnull]). *)
Definition isnull (v : pyval) : bool :=
  match v with
  | PNone | PNaN => true
  | _ => false
  end.

(** Element-wise [==] of a column against a scalar: a missing value is
    equal to nothing, an integer is never equal to a string. *)
Definition py_eq (a b : pyval) : bool :=
  match a, b with
  | PInt x, PInt y => x =? y
  | PStr s, PStr t => String.eqb s t
  | _, _ => false
  end.

Inductive exn : Type :=
| KeyError (key : string)
| IndexError
| TypeError
| UnboundLocalError (name : string)
| OSError (msg : string)
| CalledProcessError (status : Z).

Inductive result (A : Type) : Type :=
| Ok (a : A)
| Raise (e : exn).
Arguments Ok {A} a.
Arguments Raise {A} e.

Definition rbind {A B : Type} (r : result A) (f : A -> result B) : result B :=
  match r with
  | Ok a => f a
  | Raise e => Raise e
  end.

Notation "'try' x <- r ; k" := (rbind r (fun x => k))
  (at level 10, x name, r at level 100, k at level 200).

(** [v - n] and [v + n] for a cell [v] and a Python int [n]. *)
Definition py_sub (v : pyval) (n : Z) : result pyval :=
  match v with
  | PInt z => Ok (PInt (z - n))
  | PNaN => Ok PNaN
  | PNone | PStr _ => Raise TypeError
  end.

Definition py_add (v : pyval) (n : Z) : result pyval :=
  match v with
  | PInt z => Ok (PInt (z + n))
  | PNaN => Ok PNaN
  | PNone | PStr _ => Raise TypeError
  end.

(* ===================================================================== *)
(** * Regular expressions ([re.search])                                   *)
(* ===================================================================== *)

(** The fragment of [re] syntax the script uses: literals, bracket
    classes made of ranges and single characters, concatenation and
    counted repetition.  [Alt] is only produced by derivatives. *)
Inductive regex : Type :=
| Empty
| Lit (c : ascii)
| Class (ranges : list (ascii * ascii))
| Seq (r1 r2 : regex)
| Alt (r1 r2 : regex)
| Star (r : regex).

Definition in_range (lo hi c : ascii) : bool :=
  (N_of_ascii lo <=? N_of_ascii c)%N && (N_of_ascii c <=? N_of_ascii hi)%N.

Definition in_class (ranges : list (ascii * ascii)) (c : ascii) : bool :=
  existsb (fun r => in_range (fst r) (snd r) c) ranges.

(** [r{n}] *)
Fixpoint repeat_exact (r : regex) (n : nat) : regex :=
  match n with
  | O => Empty
  | S n' => Seq r (repeat_exact r n')
  end.

(** [r{n,}] *)
Definition repeat_min (r : regex) (n : nat) : regex :=
  Seq (repeat_exact r n) (Star r).

Fixpoint seq_of (rs : list regex) : regex :=
  match rs with
  | [] => Empty
  | r :: rs' => Seq r (seq_of rs')
  end.

(** The words a regular expression matches in full. *)
Inductive lang : regex -> list ascii -> Prop :=
| lang_Empty : lang Empty []
| lang_Lit c : lang (Lit c) [c]
| lang_Class rs c : in_class rs c = true -> lang (Class rs) [c]
| lang_Seq r1 r2 u v : lang r1 u -> lang r2 v -> lang (Seq r1 r2) (u ++ v)
| lang_Alt_l r1 r2 u : lang r1 u -> lang (Alt r1 r2) u
| lang_Alt_r r1 r2 u : lang r2 u -> lang (Alt r1 r2) u
| lang_Star_nil r : lang (Star r) []
| lang_Star_app r u v : lang r u -> lang (Star r) v -> lang (Star r) (u ++ v).

Fixpoint nullable (r : regex) : bool :=
  match r with
  | Empty => true
  | Lit _ => false
  | Class _ => false
  | Seq r1 r2 => nullable r1 && nullable r2
  | Alt r1 r2 => nullable r1 || nullable r2
  | Star _ => true
  end.

Definition Fail : regex := Class [].

Fixpoint deriv (c : ascii) (r : regex) : regex :=
  match r with
  | Empty => Fail
  | Lit d => if Ascii.eqb c d then Empty else Fail
  | Class rs => if in_class rs c then Empty else Fail
  | Seq r1 r2 =>
      if nullable r1
      then Alt (Seq (deriv c r1) r2) (deriv c r2)
      else Seq (deriv c r1) r2
  | Alt r1 r2 => Alt (deriv c r1) (deriv c r2)
  | Star r1 => Seq (deriv c r1) (Star r1)
  end.

(** Does the expression match at the very beginning of [s]
    ([re.match])? *)
Fixpoint match_here (r : regex) (s : list ascii) : bool :=
  nullable r ||
  match s with
  | [] => false
  | c :: s' => match_here (deriv c r) s'
  end.

(** Does it match at some offset of [s]? *)
Fixpoint match_anywhere (r : regex) (s : list ascii) : bool :=
  match_here r s ||
  match s with
  | [] => false
  | _ :: s' => match_anywhere r s'
  end.

(** A compiled pattern.  A leading [^] (the script never sets
    [re.MULTILINE]) pins the search to offset 0. *)
Record pattern : Type := Pattern { anchored : bool; body : regex }.

(** [bool(re.search(p, s))] *)
Definition re_search (p : pattern) (s : string) : bool :=
  if anchored p
  then match_here (body p) (list_ascii_of_string s)
  else match_anywhere (body p) (list_ascii_of_string s).

(* ===================================================================== *)
(** * Constants and tables                                                *)
(* ===================================================================== *)

Definition ENST : Z := 1.
Definition ENSG : Z := 2.
Definition UCSC : Z := 3.
Definition REFSEQ : Z := 4.
Definition SYMBOL : Z := 5.

Definition id_descriptions : gmap Z string :=
  <[ENST := "ensembl! transcript"]>
  (<[ENSG := "ensembl! gene"]>
  (<[UCSC := "UCSC transcript id"]>
  (<[REFSEQ := "NCBI Refseq id"]>
  (<[SYMBOL := "Official gene symbol"]> ∅)))).

Definition id_gff3_names : gmap Z string :=
  <[ENST := "transcript_id"]>
  (<[ENSG := "gene_id"]>
  (<[UCSC := "TBD"]>
  (<[REFSEQ := "TBD"]>
  (<[SYMBOL := "gene_name"]> ∅)))).

(** [d[k]] for a dict whose keys are the integers above; [k] is what
    [decode_id] returned, [None] included. *)
Definition dict_getitem (d : gmap Z string) (k : option Z) : result string :=
  match k with
  | Some z =>
      match d !! z with
      | Some v => Ok v
      | None => Raise (KeyError "int")
      end
  | None => Raise (KeyError "None")
  end.

(** [bool(id_type)] *)
Definition id_truthy (k : option Z) : bool :=
  match k with
  | Some z => negb (z =? 0)
  | None => false
  end.

(* ===================================================================== *)
(** * Region                                                              *)
(* ===================================================================== *)

Record Region : Type := mkRegion {
  chrom : pyval;
  start : pyval;
  end_ : pyval;
  name : pyval;
  score : pyval;
  strand : pyval
}.

(** [Region()]: every field defaults to [None]. *)
Definition Region_default : Region :=
  mkRegion PNone PNone PNone PNone PNone PNone.

(** [Region.__bool__] (also bound to [__nonzero__]). *)
Definition Region_bool (self : Region) : bool :=
  if existsb truthy
       [chrom self; start self; end_ self; name self; score self; strand self]
  then true
  else false.

(* ===================================================================== *)
(** * Output and the monad of the script                                  *)
(* ===================================================================== *)

(** What a run does to the outside world: lines on standard output and
    calls of the sequence extractor. *)
Inductive event : Type :=
| Stdout (line : string)
| RunBedtools (region : Region) (identifier fasta_in fasta_out : string).

Definition M (A : Type) : Type := (list event * result A)%type.

Definition ret {A : Type} (a : A) : M A := ([], Ok a).

Definition bind {A B : Type} (m : M A) (f : A -> M B) : M B :=
  match m with
  | (out, Ok a) => let '(out', r) := f a in (out ++ out', r)
  | (out, Raise e) => (out, Raise e)
  end.

Definition liftR {A : Type} (r : result A) : M A := ([], r).

Notation "'do' x <- m ; k" := (bind m (fun x => k))
  (at level 10, x name, m at level 100, k at level 200).
Notation "m ';;' k" := (bind m (fun _ => k))
  (at level 100, k at level 200, right associativity).

Definition print (line : string) : M unit := ([Stdout line], Ok tt).

Definition warn (msg : string) : M unit := print ("[* ] " +:+ msg).

Definition info (msg : string) : M unit := print ("[ok] " +:+ msg).

(** What the outside world makes of a call of [bedtools_cmd]: [None]
    when the call returns, the exception when one leaves it.
    [using_new_bedtools] raises when bedtools is not installed, when its
    version query fails or when the two versions cannot be compared;
    [open] and [subprocess.call] can raise as well. *)
Definition extractor : Type :=
  Region -> string -> string -> string -> option exn.

(** [bedtools_cmd] writes a one-line BED file, asks bedtools for its
    version, prints the command line and runs the tool.  The call is one
    event, which keeps its arguments; it returns [True] unless the
    outside world raises. *)
Definition bedtools_cmd (tool : extractor) (region : Region)
    (identifier fasta_in fasta_out : string) : M bool :=
  ([RunBedtools region identifier fasta_in fasta_out],
   match tool region identifier fasta_in fasta_out with
   | None => Ok true
   | Some e => Raise e
   end).

(** A world in which bedtools is installed and every call returns. *)
Definition bedtools_ok : extractor := fun _ _ _ _ => None.

(* ===================================================================== *)
(** * decode_id                                                           *)
(* ===================================================================== *)

Definition digit : regex := Class [("0", "9")]%char.
Definition lower : regex := Class [("a", "z")]%char.

(** [^ENST[0-9]{11}] *)
Definition pat_ENST : pattern :=
  Pattern true
    (seq_of [Lit "E"; Lit "N"; Lit "S"; Lit "T"; repeat_exact digit 11]).

(** [^ENSG[0-9]{11}] *)
Definition pat_ENSG : pattern :=
  Pattern true
    (seq_of [Lit "E"; Lit "N"; Lit "S"; Lit "G"; repeat_exact digit 11]).

(** [^uc[0-9]{3}[a-z]{3}\.] *)
Definition pat_UCSC : pattern :=
  Pattern true
    (seq_of [Lit "u"; Lit "c"; repeat_exact digit 3; repeat_exact lower 3;
             Lit "."]).

(** [^[NX][GM]_] *)
Definition pat_REFSEQ : pattern :=
  Pattern true
    (seq_of [Class [("N", "N"); ("X", "X")]%char;
             Class [("G", "G"); ("M", "M")]%char; Lit "_"]).

(** [[A-Z0-9][A-Za-z0-9]{1,}]: no anchor. *)
Definition pat_SYMBOL : pattern :=
  Pattern false
    (seq_of [Class [("A", "Z"); ("0", "9")]%char;
             repeat_min (Class [("A", "Z"); ("a", "z"); ("0", "9")]%char) 1]).

Definition decode_id (identifier : string) : M (option Z) :=
  if re_search pat_ENST identifier then ret (Some ENST)
  else if re_search pat_ENSG identifier then ret (Some ENSG)
  else if re_search pat_UCSC identifier then ret (Some UCSC)
  else if re_search pat_REFSEQ identifier then ret (Some REFSEQ)
  else if re_search pat_SYMBOL identifier then ret (Some SYMBOL)
  else
    warn ("I was unable to understand your gene id: " +:+ identifier) ;;
    ret None.

(* ===================================================================== *)
(** * The annotation: a pandas DataFrame                                  *)
(* ===================================================================== *)

(** A frame is its column labels and its rows.  A row maps a label to
    the cell stored under it; an attribute a GFF3 line does not carry is
    a missing value.  Only the labels listed in [columns] can be read. *)
Record DataFrame : Type := mkDataFrame {
  columns : list string;
  rows : list (gmap string pyval)
}.

Definition cell (r : gmap string pyval) (c : string) : pyval :=
  default PNaN (r !! c).

(** [df[c]]: the column as a sequence of cells, [KeyError] for an
    unknown label. *)
Definition getitem (df : DataFrame) (c : string) : result (list pyval) :=
  if decide (c ∈ columns df)
  then Ok ((fun r => cell r c) <$> rows df)
  else Raise (KeyError c).

(** [series == v] *)
Definition series_eq (s : list pyval) (v : pyval) : list bool :=
  (fun x => py_eq x v) <$> s.

Fixpoint select {A : Type} (l : list A) (m : list bool) : list A :=
  match l, m with
  | x :: l', b :: m' => if b then x :: select l' m' else select l' m'
  | _, _ => []
  end.

(** [df[mask]]: boolean indexing. *)
Definition mask (df : DataFrame) (m : list bool) : DataFrame :=
  mkDataFrame (columns df) (select (rows df) m).

(** [df[[c1, ..., cn]]]: [KeyError] on the first unknown label. *)
Fixpoint check_labels (df : DataFrame) (cs : list string) : result unit :=
  match cs with
  | [] => Ok tt
  | c :: cs' =>
      if decide (c ∈ columns df) then check_labels df cs' else Raise (KeyError c)
  end.

Definition getitems (df : DataFrame) (cs : list string) : result DataFrame :=
  try _u <- check_labels df cs;
  Ok (mkDataFrame cs (rows df)).

(** [df.dropna(subset=[c])] *)
Definition dropna (df : DataFrame) (c : string) : result DataFrame :=
  if decide (c ∈ columns df)
  then Ok (mkDataFrame (columns df)
             (filter (fun r => isnull (cell r c) = false) (rows df)))
  else Raise (KeyError c).

(** What [drop_duplicates] compares: the cells under the frame's labels,
    all missing values being alike. *)
Definition norm_null (v : pyval) : pyval :=
  if isnull v then PNaN else v.

Definition row_key (cs : list string) (r : gmap string pyval) : list pyval :=
  (fun c => norm_null (cell r c)) <$> cs.

(** Keep the first row of every key. *)
Fixpoint dedup (cs : list string) (seen : list (list pyval))
    (l : list (gmap string pyval)) : list (gmap string pyval) :=
  match l with
  | [] => []
  | r :: l' =>
      if decide (row_key cs r ∈ seen)
      then dedup cs seen l'
      else r :: dedup cs (row_key cs r :: seen) l'
  end.

(** [df.drop_duplicates()] *)
Definition drop_duplicates (df : DataFrame) : DataFrame :=
  mkDataFrame (columns df) (dedup (columns df) [] (rows df)).

(** [len(df)] *)
Definition len (df : DataFrame) : nat := length (rows df).

(** [series.values[0]] *)
Definition values0 (s : list pyval) : result pyval :=
  match s with
  | v :: _ => Ok v
  | [] => Raise IndexError
  end.

(* ===================================================================== *)
(** * validate_identifier                                                 *)
(* ===================================================================== *)

Definition validate_identifier (annot : DataFrame) (id_column identifier : string)
  : M bool :=
  do col <- liftR (getitem annot id_column);
  let _this_gene := mask annot (series_eq col (PStr identifier)) in
  do sub <- liftR (dropna _this_gene "appris_principal");
  do feature <- liftR (getitem sub "feature");
  do coords <- liftR (getitems (mask sub (series_eq feature (PStr "start_codon")))
                        ["start"; "end"]);
  let principal_count := len (drop_duplicates coords) in
  if (len _this_gene =? 0)%nat then
    warn ("no " +:+ id_column +:+ " known by this identifier: " +:+ identifier) ;;
    ret false
  else if (principal_count =? 0)%nat then
    warn ("no principal isoform found for " +:+ identifier) ;;
    ret false
  else if (1 <? principal_count)%nat then
    warn ("too many primary isoforms for " +:+ identifier) ;;
    ret false
  else
    ret true.

(* ===================================================================== *)
(** * do_gff3_stuff                                                       *)
(* ===================================================================== *)

(** The two locals [bed_start] and [bed_end] are bound only in the
    branches for ["+"] and ["-"]; reading them unbound raises. *)
Definition do_gff3_stuff (principal : DataFrame) (id_column identifier : string)
    (up down : Z) : result Region :=
  try feature <- getitem principal "feature";
  let start_codon := mask principal (series_eq feature (PStr "start_codon")) in
  try starts <- getitem start_codon "start";
  try CDS <- values0 starts;
  try seqnames <- getitem start_codon "seqname";
  try chrom <- values0 seqnames;
  try strands <- getitem start_codon "strand";
  try strand <- values0 strands;
  try bed <-
    (if py_eq strand (PStr "+") then
       try bed_start <- py_sub CDS up;
       try bed_end <- py_add CDS down;
       Ok (Some (bed_start, bed_end))
     else if py_eq strand (PStr "-") then
       try bed_start <- py_sub CDS down;
       try bed_end <- py_add CDS up;
       Ok (Some (bed_start, bed_end))
     else Ok None);
  match bed with
  | Some (bed_start, bed_end) =>
      Ok (mkRegion chrom bed_start bed_end (PStr identifier) (PStr ".") strand)
  | None => Raise (UnboundLocalError "bed_start")
  end.

(* ===================================================================== *)
(** * main                                                                *)
(* ===================================================================== *)

(** One turn of the [for identifier in args.identifiers] loop.  A
    [continue] ends the turn. *)
Definition main_body (tool : extractor) (annot principals : DataFrame)
    (fasta : string) (up down : Z) (identifier : string) : M unit :=
  do id_type <- decode_id identifier;
  do id_column <- liftR (dict_getitem id_gff3_names id_type);
  do _i <- (if id_truthy id_type
            then do d <- liftR (dict_getitem id_descriptions id_type);
                 info (identifier +:+ " => " +:+ d)
            else ret tt);
  do valid <- validate_identifier annot id_column identifier;
  if negb valid then
    print EmptyString
  else
    do pcol <- liftR (getitem principals id_column);
    do tids <- liftR (getitem (mask principals (series_eq pcol (PStr identifier)))
                        "transcript_id");
    do primary_isoform <- liftR (values0 tids);
    do tcol <- liftR (getitem annot "transcript_id");
    do region <- liftR (do_gff3_stuff (mask annot (series_eq tcol primary_isoform))
                          id_column identifier up down);
    if negb (Region_bool region) then
      print EmptyString
    else
      let fastaout_fn := identifier +:+ ".fa" in
      do _b <- bedtools_cmd tool region identifier fasta fastaout_fn;
      print EmptyString.

Fixpoint for_each {A : Type} (f : A -> M unit) (l : list A) : M unit :=
  match l with
  | [] => ret tt
  | x :: l' => f x ;; for_each f l'
  end.

(** [main] from the point where the annotation has been loaded and its
    [start] column cast to integers: [annot] is that frame, [fasta] the
    validated path of the FASTA file, [tool] what the calls of the
    extractor come to. *)
Definition main (tool : extractor) (annot : DataFrame) (fasta : string)
    (up down : Z) (identifiers : list string) : M unit :=
  do nonnull <- liftR (dropna annot "appris_principal");
  do five <- liftR (getitems nonnull
                      ["gene_name"; "gene_id"; "transcript_name"; "transcript_id";
                       "appris_principal"]);
  let principals := drop_duplicates five in
  info ("probing genes" +:+ String "010" EmptyString) ;;
  for_each (main_body tool annot principals fasta up down) identifiers.

(* ===================================================================== *)
(** * Reference notions for the statements                                *)
(* ===================================================================== *)

(** [re.search] read declaratively: the pattern matches some substring
    of [s], which starts at offset 0 when the pattern is anchored. *)
Definition Matches (p : pattern) (s : string) : Prop :=
  if anchored p
  then exists u v, list_ascii_of_string s = u ++ v /\ lang (body p) u
  else exists t u v, list_ascii_of_string s = t ++ u ++ v /\ lang (body p) u.

Definition is_digit (c : ascii) : bool := in_class [("0", "9")]%char c.
Definition is_lower (c : ascii) : bool := in_class [("a", "z")]%char c.
Definition is_upper_or_digit (c : ascii) : bool :=
  in_class [("A", "Z"); ("0", "9")]%char c.
Definition is_alnum (c : ascii) : bool :=
  in_class [("A", "Z"); ("a", "z"); ("0", "9")]%char c.

(** The gene-symbol rule in the words of the specification: the
    identifier begins with an uppercase letter or digit, followed by one
    or more alphanumeric characters. *)
Definition spec_begins_like_symbol (identifier : string) : bool :=
  match list_ascii_of_string identifier with
  | a :: b :: _ => is_upper_or_digit a && is_alnum b
  | _ => false
  end.

(** The kinds in the order [decode_id] tries them. *)
Definition classification_order : list (pattern * Z) :=
  [(pat_ENST, ENST); (pat_ENSG, ENSG); (pat_UCSC, UCSC); (pat_REFSEQ, REFSEQ);
   (pat_SYMBOL, SYMBOL)].

(** The annotation rows whose lookup column holds the identifier. *)
Definition rows_for (annot : DataFrame) (id_column identifier : string)
  : list (gmap string pyval) :=
  filter (fun r => cell r id_column = PStr identifier) (rows annot).

(** Among them, the start codons tagged [appris_principal]. *)
Definition principal_start_codons (annot : DataFrame) (id_column identifier : string)
  : list (gmap string pyval) :=
  filter (fun r => cell r "feature" = PStr "start_codon")
    (filter (fun r => isnull (cell r "appris_principal") = false)
       (rows_for annot id_column identifier)).

Definition coord_pair (r : gmap string pyval) : pyval * pyval :=
  (norm_null (cell r "start"), norm_null (cell r "end")).

(** The number of distinct (start, end) pairs among them. *)
Definition distinct_coords (annot : DataFrame) (id_column identifier : string)
  : nat :=
  length (remove_dups (coord_pair <$> principal_start_codons annot id_column identifier)).

(** The row [do_gff3_stuff] reads. *)
Definition first_start_codon (principal : DataFrame) : option (gmap string pyval) :=
  head (filter (fun r => cell r "feature" = PStr "start_codon") (rows principal)).

(** What [do_gff3_stuff] computes from that row. *)
Definition region_of_row (identifier : string) (up down : Z)
    (r : gmap string pyval) : result Region :=
  let CDS := cell r "start" in
  let strand := cell r "strand" in
  if py_eq strand (PStr "+") then
    try bed_start <- py_sub CDS up;
    try bed_end <- py_add CDS down;
    Ok (mkRegion (cell r "seqname") bed_start bed_end (PStr identifier) (PStr ".")
          strand)
  else if py_eq strand (PStr "-") then
    try bed_start <- py_sub CDS down;
    try bed_end <- py_add CDS up;
    Ok (mkRegion (cell r "seqname") bed_start bed_end (PStr identifier) (PStr ".")
          strand)
  else Raise (UnboundLocalError "bed_start").

(* ===================================================================== *)
(** * Sample annotations                                                  *)
(* ===================================================================== *)

Definition gff3_columns : list string :=
  ["seqname"; "start"; "end"; "strand"; "feature"; "gene_id"; "gene_name";
   "transcript_id"; "transcript_name"; "appris_principal"].

Definition gff3_row (seqname : string) (start_ end_pos : Z) (strand_ feature : string)
    (gene_id gene_name transcript_id : string) (appris : option string)
  : gmap string pyval :=
  let r : gmap string pyval :=
    <["seqname" := PStr seqname]>
    (<["start" := PInt start_]>
    (<["end" := PInt end_pos]>
    (<["strand" := PStr strand_]>
    (<["feature" := PStr feature]>
    (<["gene_id" := PStr gene_id]>
    (<["gene_name" := PStr gene_name]>
    (<["transcript_id" := PStr transcript_id]>
    (<["transcript_name" := PStr (gene_name +:+ "-201")]> ∅)))))))) in
  match appris with
  | Some tag => <["appris_principal" := PStr tag]> r
  | None => r
  end.

(** A gene on the minus strand whose principal start codon is at 1000. *)
Definition tp53_annot : DataFrame :=
  mkDataFrame gff3_columns
    [gff3_row "chr17" 900 2500 "-" "transcript"
       "ENSG00000141510" "TP53" "ENST00000269305" None;
     gff3_row "chr17" 1000 1002 "-" "start_codon"
       "ENSG00000141510" "TP53" "ENST00000269305" (Some "1")].

(** A gene on the plus strand whose principal start codon is at 1000. *)
Definition brca2_annot : DataFrame :=
  mkDataFrame gff3_columns
    [gff3_row "chr13" 1000 1002 "+" "start_codon"
       "ENSG00000139618" "BRCA2" "ENST00000380152" (Some "1")].

(** A start codon whose strand is not given. *)
Definition unstranded_annot : DataFrame :=
  mkDataFrame gff3_columns
    [gff3_row "chr1" 1000 1002 "." "start_codon"
       "ENSG00000000001" "GENE1" "ENST00000000001" (Some "1")].

(* ===================================================================== *)
(** * main: the principal isoform                                         *)
(* ===================================================================== *)

(** Line 235: the rows tagged [appris_principal], cut down to five
    columns, without duplicates. *)
Definition principals_frame (annot : DataFrame) : result DataFrame :=
  try nonnull <- dropna annot "appris_principal";
  try five <- getitems nonnull
                ["gene_name"; "gene_id"; "transcript_name"; "transcript_id";
                 "appris_principal"];
  Ok (drop_duplicates five).

(** Line 254:
    [principals[principals[id_column]==identifier]['transcript_id'].values[0]] *)
Definition primary_isoform (principals : DataFrame) (id_column identifier : string)
  : result pyval :=
  try pcol <- getitem principals id_column;
  try tids <- getitem (mask principals (series_eq pcol (PStr identifier)))
                "transcript_id";
  values0 tids.

(** Line 255: [annot[annot['transcript_id']==primary_isoform]] *)
Definition transcript_frame (annot : DataFrame) (isoform : pyval) : result DataFrame :=
  try tcol <- getitem annot "transcript_id";
  Ok (mask annot (series_eq tcol isoform)).

(** The rows tagged [appris_principal] whose lookup column holds the
    identifier, in the order of the annotation. *)
Definition principal_rows_for (annot : DataFrame) (id_column identifier : string)
  : list (gmap string pyval) :=
  filter (fun r => cell r id_column = PStr identifier)
    (filter (fun r => isnull (cell r "appris_principal") = false) (rows annot)).

(** The three lookup columns that exist in a GENCODE annotation. *)
Definition real_lookup_columns : list string :=
  ["transcript_id"; "gene_id"; "gene_name"].

(* ===================================================================== *)
(** * bedtools_cmd: the BED line                                          *)
(* ===================================================================== *)

(** [str(v)] *)
Definition py_str (v : pyval) : string :=
  match v with
  | PNone => "None"
  | PNaN => "nan"
  | PInt z => NilZero.string_of_int (Z.to_int z)
  | PStr s => s
  end.

Definition tab : ascii := "009"%char.
Definition newline : ascii := "010"%char.

(** Lines 111-118. *)
Definition bed_name (region : Region) : string :=
  py_str (name region) +:+ ";promoter;" +:+ py_str (chrom region) +:+ ":" +:+
  py_str (start region) +:+ "-" +:+ py_str (end_ region) +:+ "(" +:+
  py_str (strand region) +:+ ")".

(** Line 119. *)
Definition bed_fields (region : Region) : list string :=
  [py_str (chrom region); py_str (start region); py_str (end_ region);
   bed_name region; py_str (score region); py_str (strand region)].

(** Line 120: ['\t'.join(bed_fields) + '\n']. *)
Definition bed_line (region : Region) : string :=
  String.concat (String tab EmptyString) (bed_fields region) +:+
  String newline EmptyString.

(** How a reader of the BED file cuts a line into columns:
    [s.split(sep)] for a one-character separator. *)
Fixpoint split_on (sep : ascii) (s : string) : list string :=
  match s with
  | EmptyString => [EmptyString]
  | String c s' =>
      if Ascii.eqb c sep then EmptyString :: split_on sep s'
      else
        match split_on sep s' with
        | h :: t => String c h :: t
        | [] => [String c EmptyString]
        end
  end.

Fixpoint contains_char (c : ascii) (s : string) : bool :=
  match s with
  | EmptyString => false
  | String d s' => Ascii.eqb d c || contains_char c s'
  end.

(* ===================================================================== *)
(** * main: configuration and input files                                 *)
(* ===================================================================== *)

(** What the start of [main] asks of the outside world:
    [os.path.abspath(os.path.expanduser(f))], [os.path.isfile], whether
    [open] raises (and with which message), and the content of
    [prex.json] when that file exists (an object whose values are
    strings). *)
Record filesystem : Type := mkFilesystem {
  normalize : string -> string;
  isfile : string -> bool;
  open_error : string -> option string;
  prex_json : option (gmap string string)
}.

(** [args.fasta] and [args.gff3]; [None] when the option is not given. *)
Record arguments : Type := mkArguments {
  arg_fasta : option string;
  arg_gff3 : option string
}.

(** A computation that may end the process: what it printed, and either
    its value or the exit status. *)
Definition startup (A : Type) : Type := (list event * (A + Z))%type.

Definition sbind {A B : Type} (m : startup A) (f : A -> startup B) : startup B :=
  match m with
  | (out, inl a) => let '(out', r) := f a in (out ++ out', r)
  | (out, inr status) => (out, inr status)
  end.

Notation "'run' x <- m ; k" := (sbind m (fun x => k))
  (at level 10, x name, m at level 100, k at level 200).

(** [abort(msg, retval=1)] *)
Definition abort {A : Type} (msg : string) (retval : Z) : startup A :=
  ([Stdout ("[!!] " +:+ msg)], inr retval).

Definition load_config (fs : filesystem) : gmap string string :=
  match prex_json fs with
  | Some config => config
  | None => ∅
  end.

Definition validate_file (fs : filesystem) (filename : string) : startup string :=
  let normpath := normalize fs filename in
  if negb (isfile fs normpath) then
    abort ("File not found: " +:+ normpath) 1
  else
    match open_error fs normpath with
    | None => ([Stdout ("[ok] " +:+ normpath)], inl normpath)
    | Some e => abort e 1
    end.

(** [if args.x: config[key] = args.x] *)
Definition override (key : string) (arg : option string) (config : gmap string string)
  : gmap string string :=
  match arg with
  | Some s => if negb (String.eqb s EmptyString) then <[key := s]> config else config
  | None => config
  end.

(** Lines 219-230 of [main], up to the loading of the annotation. *)
Definition main_setup (fs : filesystem) (args : arguments)
  : startup (gmap string string) :=
  let config := load_config fs in
  let config := override "fasta" (arg_fasta args) config in
  let config := override "gff3" (arg_gff3 args) config in
  match config !! "fasta", config !! "gff3" with
  | Some fasta, Some gff3 =>
      run fasta' <- validate_file fs fasta;
      let config := <["fasta" := fasta']> config in
      run gff3' <- validate_file fs gff3;
      let config := <["gff3" := gff3']> config in
      ([Stdout "[ok] loading gff3"], inl config)
  | _, _ =>
      abort ("Please specify a FASTA file and GFF3 annotation" +:+
             String newline "(or define defaults in your prex.json config file)") 1
  end.

(** A small world for the examples: two files exist and open. *)
Definition sample_fs : filesystem :=
  mkFilesystem (fun f => "/data/" +:+ f)
    (fun p => String.eqb p "/data/hg38.fa" || String.eqb p "/data/gencode.gff3")
    (fun _ => None)
    (Some (<["fasta" := "hg38.fa"]> ∅)).

(** The TP53 annotation with its rows in another order, one of them
    twice, and a row of another gene. *)
Definition tp53_annot_shuffled : DataFrame :=
  mkDataFrame gff3_columns
    [gff3_row "chr17" 1000 1002 "-" "start_codon"
       "ENSG00000141510" "TP53" "ENST00000269305" (Some "1");
     gff3_row "chr13" 1000 1002 "+" "start_codon"
       "ENSG00000139618" "BRCA2" "ENST00000380152" (Some "1");
     gff3_row "chr17" 900 2500 "-" "transcript"
       "ENSG00000141510" "TP53" "ENST00000269305" None;
     gff3_row "chr17" 1000 1002 "-" "start_codon"
       "ENSG00000141510" "TP53" "ENST00000269305" (Some "1")].

(** The number of empty lines among the events. *)
Definition is_blank (e : event) : bool :=
  match e with
  | Stdout line => String.eqb line EmptyString
  | RunBedtools _ _ _ _ => false
  end.

Definition blank_lines (out : list event) : nat :=
  length (filter (fun e => is_blank e = true) out).

Definition is_extractor_call (e : event) : bool :=
  match e with
  | Stdout _ => false
  | RunBedtools _ _ _ _ => true
  end.

Definition extractor_calls (out : list event) : nat :=
  length (filter (fun e => is_extractor_call e = true) out).

(** An annotation without any start codon. *)
Definition no_start_codon_annot : DataFrame :=
  mkDataFrame gff3_columns
    [gff3_row "chr17" 900 2500 "-" "transcript"
       "ENSG00000141510" "TP53" "ENST00000269305" (Some "1")].

(** A start codon whose [start] is still the text read from the file. *)
Definition uncast_annot : DataFrame :=
  mkDataFrame gff3_columns
    [<["start" := PStr "1000"]>
       (gff3_row "chr17" 1000 1002 "-" "start_codon"
          "ENSG00000141510" "TP53" "ENST00000269305" (Some "1"))].

(** The path in effect for one of the two inputs: the command-line
    option when it is given and not empty, the entry of [prex.json]
    otherwise. *)
Definition chosen (arg configured : option string) : option string :=
  match arg with
  | Some s => if String.eqb s EmptyString then configured else Some s
  | None => configured
  end.

(** The file exists and opens. *)
Definition usable (fs : filesystem) (filename : string) : Prop :=
  isfile fs (normalize fs filename) = true /\
  open_error fs (normalize fs filename) = None.


Section RegexCorrect.

Lemma lang_Empty_inv w : lang Empty w <-> w = [].
Proof. split; [inversion 1; auto | intros ->; constructor]. Qed.

Lemma lang_Lit_inv c w : lang (Lit c) w <-> w = [c].
Proof. split; [inversion 1; auto | intros ->; constructor]. Qed.

Lemma lang_Class_inv rs w :
  lang (Class rs) w <-> exists c, w = [c] /\ in_class rs c = true.
Proof.
  split.
  - inversion 1; subst; eauto.
  - intros (c & -> & H). constructor; auto.
Qed.

Lemma lang_Seq_inv r1 r2 w :
  lang (Seq r1 r2) w <-> exists u v, w = u ++ v /\ lang r1 u /\ lang r2 v.
Proof.
  split.
  - inversion 1; subst; eauto.
  - intros (u & v & -> & H1 & H2). constructor; auto.
Qed.

Lemma lang_Alt_inv r1 r2 w : lang (Alt r1 r2) w <-> lang r1 w \/ lang r2 w.
Proof.
  split.
  - inversion 1; subst; auto.
  - intros [H | H]; [apply lang_Alt_l | apply lang_Alt_r]; auto.
Qed.

Lemma lang_Fail w : ~ lang Fail w.
Proof. intros H. apply lang_Class_inv in H as (c & _ & H). discriminate. Qed.

Lemma nullable_spec r : nullable r = true <-> lang r [].
Proof.
  induction r; simpl.
  - rewrite lang_Empty_inv. tauto.
  - rewrite lang_Lit_inv. split; discriminate.
  - rewrite lang_Class_inv. split; [discriminate | intros (c & E & _); discriminate].
  - rewrite andb_true_iff, lang_Seq_inv, IHr1, IHr2. split.
    + intros [H1 H2]. exists [], []. auto.
    + intros (u & v & E & H1 & H2). symmetry in E.
      apply app_eq_nil in E as [-> ->]. auto.
  - rewrite orb_true_iff, lang_Alt_inv, IHr1, IHr2. tauto.
  - split; [constructor | reflexivity].
Qed.

Lemma lang_Star_cons_inv r c s :
  lang (Star r) (c :: s) ->
  exists u v, s = u ++ v /\ lang r (c :: u) /\ lang (Star r) v.
Proof.
  intros H. remember (Star r) as q eqn:Eq. remember (c :: s) as w eqn:Ew.
  revert c s Ew.
  induction H as [ | | | | | | |r0 u v Hu _ Hv IHv]; intros c0 s0 Ew;
    try discriminate.
  injection Eq as ->.
  destruct u as [|a u]; simpl in Ew.
  - apply IHv; auto.
  - injection Ew as -> <-. exists u, v. auto.
Qed.

Lemma deriv_spec c r s : lang (deriv c r) s <-> lang r (c :: s).
Proof.
  revert s. induction r as [ |d|rs|r1 IH1 r2 IH2|r1 IH1 r2 IH2|r IH];
    intros s; simpl.
  - rewrite lang_Empty_inv. split; [intros H; destruct (lang_Fail _ H) | discriminate].
  - rewrite lang_Lit_inv. destruct (Ascii.eqb_spec c d) as [->|Hne].
    + rewrite lang_Empty_inv. split; [intros ->; auto | intros [= ->]; auto].
    + split; [intros H; destruct (lang_Fail _ H) | intros [= -> ->]; congruence].
  - rewrite lang_Class_inv. destruct (in_class rs c) eqn:Ec.
    + rewrite lang_Empty_inv. split; [intros ->; eauto | intros (x & [= -> ->] & _); auto].
    + split; [intros H; destruct (lang_Fail _ H) | intros (x & [= -> ->] & H); congruence].
  - assert (Hcons : lang (Seq (deriv c r1) r2) s <->
                    exists u v, s = u ++ v /\ lang r1 (c :: u) /\ lang r2 v).
    { rewrite lang_Seq_inv. split; intros (u & v & E & H1 & H2);
        exists u, v; (split; [exact E|]); (split; [apply IH1; exact H1 | exact H2]). }
    rewrite lang_Seq_inv. destruct (nullable r1) eqn:En.
    + rewrite lang_Alt_inv, Hcons, IH2. split.
      * intros [(u & v & -> & H1 & H2) | H].
        -- exists (c :: u), v. auto.
        -- exists [], (c :: s). split; auto. split; auto. apply nullable_spec; auto.
      * intros (u & v & E & H1 & H2). destruct u as [|a u]; simpl in E.
        -- right. rewrite E. auto.
        -- injection E as <- ->. left. exists u, v. auto.
    + rewrite Hcons. split.
      * intros (u & v & -> & H1 & H2). exists (c :: u), v. auto.
      * intros (u & v & E & H1 & H2). destruct u as [|a u]; simpl in E.
        -- apply nullable_spec in H1. congruence.
        -- injection E as <- ->. exists u, v. auto.
  - rewrite !lang_Alt_inv, IH1, IH2. tauto.
  - rewrite lang_Seq_inv. split.
    + intros (u & v & -> & H1 & H2). change (c :: u ++ v) with ((c :: u) ++ v).
      constructor; auto. apply IH; auto.
    + intros H. apply lang_Star_cons_inv in H as (u & v & -> & Hu & Hv).
      exists u, v. split; auto. split; auto. apply IH; auto.
Qed.

Lemma match_here_spec r s :
  match_here r s = true <-> exists u v, s = u ++ v /\ lang r u.
Proof.
  revert r. induction s as [|c s IH]; intros r; simpl.
  - rewrite orb_false_r, nullable_spec. split.
    + intros H. exists [], []. auto.
    + intros (u & v & E & H). symmetry in E. apply app_eq_nil in E as [-> ->]. auto.
  - rewrite orb_true_iff, nullable_spec, IH. split.
    + intros [H | (u & v & -> & H)].
      * exists [], (c :: s). auto.
      * exists (c :: u), v. split; auto. apply deriv_spec; auto.
    + intros (u & v & E & H). destruct u as [|a u]; simpl in E.
      * left; auto.
      * injection E as <- ->. right. exists u, v. split; auto. apply deriv_spec; auto.
Qed.

Lemma match_anywhere_spec r s :
  match_anywhere r s = true <-> exists t u v, s = t ++ u ++ v /\ lang r u.
Proof.
  induction s as [|c s IH]; cbn [match_anywhere].
  - rewrite orb_false_r, match_here_spec. split.
    + intros (u & v & E & H). exists [], u, v. auto.
    + intros (t & u & v & E & H). symmetry in E.
      apply app_eq_nil in E as [-> E]. exists u, v. auto.
  - rewrite orb_true_iff, match_here_spec, IH. split.
    + intros [(u & v & E & H) | (t & u & v & -> & H)].
      * exists [], u, v. auto.
      * exists (c :: t), u, v. auto.
    + intros (t & u & v & E & H). destruct t as [|a t]; simpl in E.
      * left. exists u, v. auto.
      * injection E as <- ->. right. exists t, u, v. auto.
Qed.

Lemma re_search_spec p s : re_search p s = true <-> Matches p s.
Proof.
  unfold re_search, Matches. destruct (anchored p).
  - apply match_here_spec.
  - apply match_anywhere_spec.
Qed.

End RegexCorrect.

(* ===================================================================== *)
(** * The five patterns                                                   *)
(* ===================================================================== *)

Section Patterns.

Lemma lang_Lit_cons c r w :
  lang (Seq (Lit c) r) w <-> exists w', w = c :: w' /\ lang r w'.
Proof.
  rewrite lang_Seq_inv. split.
  - intros (u & v & -> & Hu & Hv). apply lang_Lit_inv in Hu as ->. eauto.
  - intros (w' & -> & H). exists [c], w'. split; auto. split; auto. constructor.
Qed.

Lemma lang_Class_cons rs r w :
  lang (Seq (Class rs) r) w <->
  exists x w', w = x :: w' /\ in_class rs x = true /\ lang r w'.
Proof.
  rewrite lang_Seq_inv. split.
  - intros (u & v & -> & Hu & Hv). apply lang_Class_inv in Hu as (x & -> & Hx). eauto.
  - intros (x & w' & -> & Hx & H). exists [x], w'. split; auto. split; auto.
    constructor; auto.
Qed.

Lemma lang_repeat_class rs n w :
  lang (repeat_exact (Class rs) n) w <->
  length w = n /\ Forall (fun c => in_class rs c = true) w.
Proof.
  revert w. induction n as [|n IH]; intros w; simpl.
  - rewrite lang_Empty_inv. split.
    + intros ->. split; auto.
    + intros [H _]. destruct w; [auto | discriminate].
  - rewrite lang_Class_cons. split.
    + intros (x & w' & -> & Hx & H). apply IH in H as [Hl Hf]. simpl.
      split; [congruence | constructor; auto].
    + intros [Hl Hf]. destruct w as [|x w']; [discriminate|].
      apply Forall_cons in Hf as [Hx Hf]. exists x, w'. split; auto. split; auto.
      apply IH. split; [simpl in Hl; congruence | auto].
Qed.

Lemma in_range_same c x : in_range c c x = true <-> x = c.
Proof.
  unfold in_range. rewrite andb_true_iff, !N.leb_le. split.
  - intros [H1 H2]. rewrite <- (ascii_N_embedding x), <- (ascii_N_embedding c).
    f_equal. lia.
  - intros ->. lia.
Qed.

(** [^ENST[0-9]{11}]: the four letters, then eleven digits, then
    anything. *)
Lemma Matches_ENST s :
  Matches pat_ENST s <->
  exists d rest,
    list_ascii_of_string s = ["E"; "N"; "S"; "T"]%char ++ d ++ rest /\
    length d = 11%nat /\ Forall (fun c => is_digit c = true) d.
Proof.
  unfold Matches, pat_ENST; cbn [anchored body seq_of]. split.
  - intros (u & v & E & H).
    apply lang_Lit_cons in H as (u1 & -> & H).
    apply lang_Lit_cons in H as (u2 & -> & H).
    apply lang_Lit_cons in H as (u3 & -> & H).
    apply lang_Lit_cons in H as (u4 & -> & H).
    apply lang_Seq_inv in H as (d & e & -> & Hd & He).
    apply lang_Empty_inv in He as ->. apply lang_repeat_class in Hd as [Hl Hf].
    exists d, v. rewrite E, app_nil_r. auto.
  - intros (d & rest & E & Hl & Hf). exists (["E"; "N"; "S"; "T"]%char ++ d), rest.
    split; [rewrite E, <- app_assoc; reflexivity|]. cbn [app].
    do 4 (apply lang_Lit_cons; eexists; split; [reflexivity|]).
    apply lang_Seq_inv. exists d, []. rewrite app_nil_r. split; auto.
    split; [apply lang_repeat_class; auto | constructor].
Qed.

(** [^ENSG[0-9]{11}] *)
Lemma Matches_ENSG s :
  Matches pat_ENSG s <->
  exists d rest,
    list_ascii_of_string s = ["E"; "N"; "S"; "G"]%char ++ d ++ rest /\
    length d = 11%nat /\ Forall (fun c => is_digit c = true) d.
Proof.
  unfold Matches, pat_ENSG; cbn [anchored body seq_of]. split.
  - intros (u & v & E & H).
    apply lang_Lit_cons in H as (u1 & -> & H).
    apply lang_Lit_cons in H as (u2 & -> & H).
    apply lang_Lit_cons in H as (u3 & -> & H).
    apply lang_Lit_cons in H as (u4 & -> & H).
    apply lang_Seq_inv in H as (d & e & -> & Hd & He).
    apply lang_Empty_inv in He as ->. apply lang_repeat_class in Hd as [Hl Hf].
    exists d, v. rewrite E, app_nil_r. auto.
  - intros (d & rest & E & Hl & Hf). exists (["E"; "N"; "S"; "G"]%char ++ d), rest.
    split; [rewrite E, <- app_assoc; reflexivity|]. cbn [app].
    do 4 (apply lang_Lit_cons; eexists; split; [reflexivity|]).
    apply lang_Seq_inv. exists d, []. rewrite app_nil_r. split; auto.
    split; [apply lang_repeat_class; auto | constructor].
Qed.

(** [^uc[0-9]{3}[a-z]{3}\\.] *)
Lemma Matches_UCSC s :
  Matches pat_UCSC s <->
  exists d l rest,
    list_ascii_of_string s = ["u"; "c"]%char ++ d ++ l ++ "."%char :: rest /\
    length d = 3%nat /\ Forall (fun c => is_digit c = true) d /\
    length l = 3%nat /\ Forall (fun c => is_lower c = true) l.
Proof.
  unfold Matches, pat_UCSC; cbn [anchored body seq_of]. split.
  - intros (u & v & E & H).
    apply lang_Lit_cons in H as (u1 & -> & H).
    apply lang_Lit_cons in H as (u2 & -> & H).
    apply lang_Seq_inv in H as (d & u3 & -> & Hd & H).
    apply lang_Seq_inv in H as (l & u4 & -> & Hl & H).
    apply lang_Lit_cons in H as (e & -> & He). apply lang_Empty_inv in He as ->.
    apply lang_repeat_class in Hd as [Hd1 Hd2].
    apply lang_repeat_class in Hl as [Hl1 Hl2].
    exists d, l, v. rewrite E. simpl. rewrite <- !app_assoc. simpl. auto.
  - intros (d & l & rest & E & Hd1 & Hd2 & Hl1 & Hl2).
    exists (["u"; "c"]%char ++ d ++ l ++ ["."%char]), rest.
    split; [rewrite E; simpl; rewrite <- !app_assoc; reflexivity|]. cbn [app].
    do 2 (apply lang_Lit_cons; eexists; split; [reflexivity|]).
    apply lang_Seq_inv. exists d, (l ++ ["."%char]). split; auto.
    split; [apply lang_repeat_class; auto|].
    apply lang_Seq_inv. exists l, ["."%char]. split; auto.
    split; [apply lang_repeat_class; auto|].
    apply lang_Lit_cons. exists []. split; auto. constructor.
Qed.

(** [^[NX][GM]_] *)
Lemma Matches_REFSEQ s :
  Matches pat_REFSEQ s <->
  exists a b rest,
    list_ascii_of_string s = a :: b :: "_"%char :: rest /\
    (a = "N"%char \/ a = "X"%char) /\ (b = "G"%char \/ b = "M"%char).
Proof.
  assert (Hcls : forall p q x,
             in_class [(p, p); (q, q)] x = true <-> x = p \/ x = q).
  { intros p q x. unfold in_class. simpl.
    rewrite orb_false_r, orb_true_iff, !in_range_same. tauto. }
  unfold Matches, pat_REFSEQ; cbn [anchored body seq_of]. split.
  - intros (u & v & E & H).
    apply lang_Class_cons in H as (a & u1 & -> & Ha & H).
    apply lang_Class_cons in H as (b & u2 & -> & Hb & H).
    apply lang_Lit_cons in H as (e & -> & He). apply lang_Empty_inv in He as ->.
    exists a, b, v. rewrite E. split; auto. split; apply Hcls; auto.
  - intros (a & b & rest & E & Ha & Hb).
    exists [a; b; "_"%char], rest. split; auto.
    apply lang_Class_cons. exists a, [b; "_"%char]. split; auto.
    split; [apply Hcls; auto|].
    apply lang_Class_cons. exists b, ["_"%char]. split; auto.
    split; [apply Hcls; auto|].
    apply lang_Lit_cons. exists []. split; auto. constructor.
Qed.

(** [[A-Z0-9][A-Za-z0-9]{1,}] without an anchor: somewhere in the
    identifier an uppercase letter or digit is directly followed by an
    alphanumeric character. *)
Lemma Matches_SYMBOL s :
  Matches pat_SYMBOL s <->
  exists t a b rest,
    list_ascii_of_string s = t ++ a :: b :: rest /\
    is_upper_or_digit a = true /\ is_alnum b = true.
Proof.
  unfold Matches, pat_SYMBOL, repeat_min; cbn [anchored body seq_of repeat_exact].
  split.
  - intros (t & u & v & E & H).
    apply lang_Class_cons in H as (a & u1 & -> & Ha & H).
    apply lang_Seq_inv in H as (u2 & e & -> & H & He).
    apply lang_Empty_inv in He as ->.
    apply lang_Seq_inv in H as (u3 & m & -> & H & _).
    apply lang_Class_cons in H as (b & e & -> & Hb & He).
    apply lang_Empty_inv in He as ->.
    exists t, a, b, (m ++ v). split; [|auto].
    rewrite E. simpl. rewrite ?app_nil_r, <- ?app_assoc. reflexivity.
  - intros (t & a & b & rest & E & Ha & Hb).
    exists t, [a; b], rest. split; auto.
    apply lang_Class_cons. exists a, [b]. split; auto. split; auto.
    apply lang_Seq_inv. exists [b], []. split; auto. split; [|constructor].
    apply lang_Seq_inv. exists [b], []. split; auto. split; [|constructor].
    apply lang_Class_cons. exists b, []. split; auto. split; auto. constructor.
Qed.

(** No identifier matches two of the four anchored patterns. *)
Lemma anchored_patterns_exclusive s :
  (Matches pat_ENST s -> ~ Matches pat_ENSG s /\ ~ Matches pat_UCSC s /\
                         ~ Matches pat_REFSEQ s) /\
  (Matches pat_ENSG s -> ~ Matches pat_ENST s /\ ~ Matches pat_UCSC s /\
                         ~ Matches pat_REFSEQ s) /\
  (Matches pat_UCSC s -> ~ Matches pat_ENST s /\ ~ Matches pat_ENSG s /\
                         ~ Matches pat_REFSEQ s) /\
  (Matches pat_REFSEQ s -> ~ Matches pat_ENST s /\ ~ Matches pat_ENSG s /\
                           ~ Matches pat_UCSC s).
Proof.
  rewrite Matches_ENST, Matches_ENSG, Matches_UCSC, Matches_REFSEQ.
  repeat split; intros; intros Hother;
    repeat match goal with
           | H : exists _, _ |- _ => destruct H
           | H : _ /\ _ |- _ => destruct H
           end;
    match goal with
    | E1 : list_ascii_of_string s = _, E2 : list_ascii_of_string s = _ |- _ =>
        rewrite E1 in E2; simpl in E2
    end;
    repeat match goal with
           | H : _ \/ _ |- _ => destruct H
           end;
    subst; discriminate.
Qed.

Lemma re_search_false p s : re_search p s = false <-> ~ Matches p s.
Proof.
  rewrite <- re_search_spec. destruct (re_search p s); split; congruence.
Qed.

End Patterns.

(* ===================================================================== *)
(** * Identifier classification                                           *)
(* ===================================================================== *)

Section Classification.

Lemma decode_id_unfold identifier :
  decode_id identifier =
  match List.find (fun pk => re_search (fst pk) identifier) classification_order with
  | Some pk => ret (Some (snd pk))
  | None =>
      ([Stdout ("[* ] I was unable to understand your gene id: " +:+ identifier)],
       Ok None)
  end.
Proof.
  unfold decode_id, classification_order; simpl.
  repeat match goal with
         | |- context [re_search ?p identifier] =>
             destruct (re_search p identifier); [reflexivity|]
         end.
  reflexivity.
Qed.

Lemma decode_id_ENST identifier :
  Matches pat_ENST identifier -> decode_id identifier = ret (Some ENST).
Proof.
  rewrite <- re_search_spec. intros H. unfold decode_id. rewrite H. reflexivity.
Qed.

Lemma decode_id_ENSG identifier :
  Matches pat_ENSG identifier -> decode_id identifier = ret (Some ENSG).
Proof.
  intros H.
  destruct (proj1 (proj2 (anchored_patterns_exclusive identifier)) H) as (N1 & _).
  apply re_search_false in N1. apply re_search_spec in H.
  unfold decode_id. rewrite N1, H. reflexivity.
Qed.

Lemma decode_id_UCSC identifier :
  Matches pat_UCSC identifier -> decode_id identifier = ret (Some UCSC).
Proof.
  intros H.
  destruct (proj1 (proj2 (proj2 (anchored_patterns_exclusive identifier))) H)
    as (N1 & N2 & _).
  apply re_search_false in N1, N2. apply re_search_spec in H.
  unfold decode_id. rewrite N1, N2, H. reflexivity.
Qed.

Lemma decode_id_REFSEQ identifier :
  Matches pat_REFSEQ identifier -> decode_id identifier = ret (Some REFSEQ).
Proof.
  intros H.
  destruct (proj2 (proj2 (proj2 (anchored_patterns_exclusive identifier))) H)
    as (N1 & N2 & N3).
  apply re_search_false in N1, N2, N3. apply re_search_spec in H.
  unfold decode_id. rewrite N1, N2, N3, H. reflexivity.
Qed.

Lemma decode_id_SYMBOL identifier :
  decode_id identifier = ret (Some SYMBOL) <->
  ~ Matches pat_ENST identifier /\ ~ Matches pat_ENSG identifier /\
  ~ Matches pat_UCSC identifier /\ ~ Matches pat_REFSEQ identifier /\
  Matches pat_SYMBOL identifier.
Proof.
  rewrite <- !re_search_false, <- re_search_spec. unfold decode_id.
  destruct (re_search pat_ENST identifier);
    [split; [discriminate | intros (? & _); discriminate]|].
  destruct (re_search pat_ENSG identifier);
    [split; [discriminate | intros (_ & ? & _); discriminate]|].
  destruct (re_search pat_UCSC identifier);
    [split; [discriminate | intros (_ & _ & ? & _); discriminate]|].
  destruct (re_search pat_REFSEQ identifier);
    [split; [discriminate | intros (_ & _ & _ & ? & _); discriminate]|].
  destruct (re_search pat_SYMBOL identifier).
  - split; auto.
  - split; [discriminate | intros (_ & _ & _ & _ & ?); discriminate].
Qed.

(** C3.  [decode_id] tries the five patterns in the order ENST, ENSG,
    UCSC, RefSeq, Symbol and answers with the first that matches.  An
    identifier that matches [^ENST[0-9]{11}] is an Ensembl transcript,
    one that matches [^ENSG[0-9]{11}] an Ensembl gene, one that matches
    [^uc[0-9]{3}[a-z]{3}\\.] a UCSC transcript, one that matches
    [^[NX][GM]_] a RefSeq id (the function returns one kind, so never
    another one), and [SYMBOL] is returned only when none of the four
    matches. *)
Theorem decode_id_first_match_wins (identifier : string) :
  (Matches pat_ENST identifier -> decode_id identifier = ret (Some ENST)) /\
  (Matches pat_ENSG identifier -> decode_id identifier = ret (Some ENSG)) /\
  (Matches pat_UCSC identifier -> decode_id identifier = ret (Some UCSC)) /\
  (Matches pat_REFSEQ identifier -> decode_id identifier = ret (Some REFSEQ)) /\
  (decode_id identifier = ret (Some SYMBOL) <->
     ~ Matches pat_ENST identifier /\ ~ Matches pat_ENSG identifier /\
     ~ Matches pat_UCSC identifier /\ ~ Matches pat_REFSEQ identifier /\
     Matches pat_SYMBOL identifier) /\
  snd (decode_id identifier) =
    Ok (snd <$> List.find (fun pk => re_search (fst pk) identifier)
                  classification_order).
Proof.
  split; [apply decode_id_ENST|].
  split; [apply decode_id_ENSG|].
  split; [apply decode_id_UCSC|].
  split; [apply decode_id_REFSEQ|].
  split; [apply decode_id_SYMBOL|].
  rewrite decode_id_unfold.
  destruct (List.find _ classification_order); reflexivity.
Qed.

(** The identifier of Example 1 is an Ensembl transcript. *)
Lemma decode_id_first_match_wins_witness :
  Matches pat_ENST "ENST00000380152" /\
  decode_id "ENST00000380152" = ret (Some ENST).
Proof.
  assert (H : Matches pat_ENST "ENST00000380152")
    by (apply re_search_spec; vm_compute; reflexivity).
  split; [exact H|].
  exact (proj1 (decode_id_first_match_wins "ENST00000380152") H).
Defined.

(** Where [decode_id] answers [SYMBOL]: none of the four anchored
    patterns matches and, somewhere in the identifier, an uppercase
    letter or digit is directly followed by an alphanumeric character. *)
Lemma decode_id_SYMBOL_iff identifier :
  decode_id identifier = ret (Some SYMBOL) <->
  ~ Matches pat_ENST identifier /\ ~ Matches pat_ENSG identifier /\
  ~ Matches pat_UCSC identifier /\ ~ Matches pat_REFSEQ identifier /\
  exists t a b rest,
    list_ascii_of_string identifier = t ++ a :: b :: rest /\
    is_upper_or_digit a = true /\ is_alnum b = true.
Proof.
  rewrite <- Matches_SYMBOL. apply decode_id_SYMBOL.
Qed.

(** An identifier that begins the way the specification describes a gene
    symbol, and is none of the four other kinds, is a [SYMBOL]. *)
Lemma decode_id_begins_like_symbol identifier :
  ~ Matches pat_ENST identifier -> ~ Matches pat_ENSG identifier ->
  ~ Matches pat_UCSC identifier -> ~ Matches pat_REFSEQ identifier ->
  spec_begins_like_symbol identifier = true ->
  decode_id identifier = ret (Some SYMBOL).
Proof.
  intros N1 N2 N3 N4 H. apply decode_id_SYMBOL_iff. repeat (split; [assumption|]).
  unfold spec_begins_like_symbol in H.
  destruct (list_ascii_of_string identifier) as [|a [|b rest]]; try discriminate.
  apply andb_true_iff in H as [Ha Hb]. exists [], a, b, rest. auto.
Qed.

(** C7.  The symbol pattern is searched for anywhere in the identifier:
    ["aB1"] matches none of the four anchored patterns and does not
    begin with an uppercase letter or digit, and [decode_id] still
    answers [SYMBOL].  ["TP53"] is a [SYMBOL] and its lookup column is
    [gene_name]. *)
Theorem decode_id_symbol_not_anchored :
  (re_search pat_ENST "aB1" = false /\ re_search pat_ENSG "aB1" = false /\
   re_search pat_UCSC "aB1" = false /\ re_search pat_REFSEQ "aB1" = false /\
   spec_begins_like_symbol "aB1" = false /\
   decode_id "aB1" = ret (Some SYMBOL)) /\
  (spec_begins_like_symbol "TP53" = true /\
   decode_id "TP53" = ret (Some SYMBOL) /\
   dict_getitem id_gff3_names (Some SYMBOL) = Ok "gene_name").
Proof. vm_compute. repeat split. Qed.

End Classification.

(* ===================================================================== *)
(** * Frames                                                              *)
(* ===================================================================== *)

Section Frames.

Lemma py_eq_PStr v s : py_eq v (PStr s) = true <-> v = PStr s.
Proof.
  destruct v as [| |z|t]; simpl; try (split; discriminate).
  rewrite String.eqb_eq. split; congruence.
Qed.

Lemma select_fmap {A : Type} (f : A -> bool) (l : list A) :
  select l (f <$> l) = filter (fun x => f x = true) l.
Proof.
  induction l as [|x l IH]; [reflexivity|].
  cbn [fmap list_fmap select]. rewrite filter_cons. destruct (f x) eqn:E.
  - rewrite decide_True by reflexivity. f_equal. exact IH.
  - rewrite decide_False by discriminate. exact IH.
Qed.

(** [df[df[c] == s]] keeps the rows whose cell under [c] is the string
    [s]. *)
Lemma mask_series_eq df c s :
  mask df (series_eq ((fun r => cell r c) <$> rows df) (PStr s)) =
  mkDataFrame (columns df) (filter (fun r => cell r c = PStr s) (rows df)).
Proof.
  unfold mask, series_eq. f_equal. rewrite <- list_fmap_compose.
  rewrite (select_fmap (fun r => py_eq (cell r c) (PStr s))).
  apply list_filter_iff. intros r. apply py_eq_PStr.
Qed.

Lemma getitem_Ok df c :
  c ∈ columns df -> getitem df c = Ok ((fun r => cell r c) <$> rows df).
Proof. intros H. unfold getitem. rewrite decide_True by assumption. reflexivity. Qed.

Lemma getitem_KeyError df c : c ∉ columns df -> getitem df c = Raise (KeyError c).
Proof. intros H. unfold getitem. rewrite decide_False by assumption. reflexivity. Qed.

Lemma dedup_keys cs seen l :
  NoDup (row_key cs <$> dedup cs seen l) /\
  forall k, k ∈ row_key cs <$> dedup cs seen l <->
            k ∈ row_key cs <$> l /\ k ∉ seen.
Proof.
  revert seen. induction l as [|r l IH]; intros seen; simpl.
  - split; [constructor|]. intros k. rewrite elem_of_nil. tauto.
  - destruct (decide (row_key cs r ∈ seen)) as [Hin|Hnin].
    + destruct (IH seen) as [Hnd Hel]. split; [exact Hnd|].
      intros k. rewrite Hel, elem_of_cons. split.
      * tauto.
      * intros [[->|Hk] Hs]; [contradiction | auto].
    + destruct (IH (row_key cs r :: seen)) as [Hnd Hel]. split.
      * cbn [fmap list_fmap]. apply NoDup_cons. split; [|exact Hnd].
        intros Hk. apply Hel in Hk as [_ Hk]. apply Hk. left.
      * intros k. cbn [fmap list_fmap]. rewrite !elem_of_cons, Hel, not_elem_of_cons.
        destruct (decide (k = row_key cs r)) as [->|Hne]; tauto.
Qed.

(** [drop_duplicates] leaves as many rows as there are distinct keys. *)
Lemma length_dedup cs l :
  length (dedup cs [] l) = length (remove_dups (row_key cs <$> l)).
Proof.
  destruct (dedup_keys cs [] l) as [Hnd Hel].
  rewrite <- (length_fmap (row_key cs)). apply Permutation_length.
  apply NoDup_Permutation; [exact Hnd | apply NoDup_remove_dups |].
  intros k. rewrite Hel, elem_of_remove_dups, elem_of_nil. tauto.
Qed.

Lemma length_remove_dups_fmap_inj {A B : Type} `{EqDecision A} `{EqDecision B}
    (f : A -> B) (l : list A) :
  Inj (=) (=) f ->
  length (remove_dups (f <$> l)) = length (remove_dups l).
Proof.
  intros Hinj. rewrite <- (length_fmap f (remove_dups l)). apply Permutation_length.
  apply NoDup_Permutation.
  - apply NoDup_remove_dups.
  - apply NoDup_fmap_2; [exact Hinj | apply NoDup_remove_dups].
  - intros k. rewrite elem_of_remove_dups, !list_elem_of_fmap.
    split; intros (x & -> & Hx); exists x; (split; [reflexivity|]);
      apply elem_of_remove_dups; exact Hx.
Qed.

Lemma length_dedup_coords l :
  length (dedup ["start"; "end"] [] l) = length (remove_dups (coord_pair <$> l)).
Proof.
  rewrite length_dedup.
  rewrite <- (length_remove_dups_fmap_inj (fun p : pyval * pyval => [fst p; snd p])).
  - rewrite <- list_fmap_compose. reflexivity.
  - intros [a b] [c d] [= -> ->]. reflexivity.
Qed.

End Frames.

(* ===================================================================== *)
(** * validate_identifier                                                 *)
(* ===================================================================== *)

Section Validation.

Variable annot : DataFrame.
Variables id_column identifier : string.

Hypothesis Hid : id_column ∈ columns annot.
Hypothesis Happris : "appris_principal" ∈ columns annot.
Hypothesis Hfeature : "feature" ∈ columns annot.
Hypothesis Hstart : "start" ∈ columns annot.
Hypothesis Hend : "end" ∈ columns annot.

(** The function once its frame operations are carried out. *)
Lemma validate_identifier_unfold :
  validate_identifier annot id_column identifier =
  if (length (rows_for annot id_column identifier) =? 0)%nat then
    ([Stdout ("[* ] no " +:+ id_column +:+ " known by this identifier: "
              +:+ identifier)], Ok false)
  else if (distinct_coords annot id_column identifier =? 0)%nat then
    ([Stdout ("[* ] no principal isoform found for " +:+ identifier)], Ok false)
  else if (1 <? distinct_coords annot id_column identifier)%nat then
    ([Stdout ("[* ] too many primary isoforms for " +:+ identifier)], Ok false)
  else ([], Ok true).
Proof.
  unfold validate_identifier.
  rewrite (getitem_Ok _ _ Hid). cbn [liftR bind app].
  rewrite mask_series_eq. fold (rows_for annot id_column identifier).
  unfold dropna; cbn [columns rows]. rewrite decide_True by exact Happris.
  cbn [liftR bind app].
  rewrite getitem_Ok by exact Hfeature. cbn [liftR bind app].
  rewrite mask_series_eq. cbn [columns rows].
  fold (principal_start_codons annot id_column identifier).
  unfold getitems, check_labels; cbn [columns rows].
  rewrite !decide_True by assumption. cbn [rbind liftR bind app].
  unfold len, drop_duplicates; cbn [columns rows].
  rewrite length_dedup_coords. fold (distinct_coords annot id_column identifier).
  destruct (length (rows_for annot id_column identifier) =? 0)%nat; [reflexivity|].
  destruct (distinct_coords annot id_column identifier =? 0)%nat; [reflexivity|].
  destruct (1 <? distinct_coords annot id_column identifier)%nat; reflexivity.
Qed.


End Validation.

Ltac in_columns := apply (bool_decide_unpack _); vm_compute; exact I.


(** An unknown lookup column is a [KeyError], whatever the identifier. *)
Lemma validate_identifier_unknown_column annot id_column identifier :
  id_column ∉ columns annot ->
  validate_identifier annot id_column identifier = ([], Raise (KeyError id_column)).
Proof.
  intros H. unfold validate_identifier. rewrite getitem_KeyError by exact H.
  reflexivity.
Qed.


(* ===================================================================== *)
(** * do_gff3_stuff                                                       *)
(* ===================================================================== *)

Section Promoter.

Variable principal : DataFrame.
Variables id_column identifier : string.
Variables up down : Z.

Lemma values0_fmap {A : Type} (f : A -> pyval) (l : list A) :
  values0 (f <$> l) =
  match head l with
  | Some x => Ok (f x)
  | None => Raise IndexError
  end.
Proof. destruct l; reflexivity. Qed.

Lemma do_gff3_stuff_unfold :
  do_gff3_stuff principal id_column identifier up down =
  if decide ("feature" ∈ columns principal) then
    if decide ("start" ∈ columns principal) then
      match first_start_codon principal with
      | None => Raise IndexError
      | Some r =>
          if decide ("seqname" ∈ columns principal) then
            if decide ("strand" ∈ columns principal) then region_of_row identifier up down r
            else Raise (KeyError "strand")
          else Raise (KeyError "seqname")
      end
    else Raise (KeyError "start")
  else Raise (KeyError "feature").
Proof.
  unfold do_gff3_stuff.
  destruct (decide ("feature" ∈ columns principal)) as [Hf|Hf];
    [rewrite (getitem_Ok _ _ Hf) | rewrite (getitem_KeyError _ _ Hf); reflexivity].
  cbn [rbind]. rewrite mask_series_eq.
  unfold getitem; cbn [columns rows].
  destruct (decide ("start" ∈ columns principal)); [|reflexivity].
  cbn [rbind]. rewrite values0_fmap. unfold first_start_codon.
  destruct (head (filter _ (rows principal))) as [r|] eqn:Eh; [|reflexivity].
  cbn [rbind].
  destruct (decide ("seqname" ∈ columns principal)); [|reflexivity].
  cbn [rbind]. rewrite values0_fmap, Eh. cbn [rbind].
  destruct (decide ("strand" ∈ columns principal)); [|reflexivity].
  cbn [rbind]. rewrite values0_fmap, Eh. cbn [rbind]. unfold region_of_row.
  destruct (py_eq (cell r "strand") (PStr "+")).
  - destruct (py_sub (cell r "start") up); [|reflexivity]. cbn [rbind].
    destruct (py_add (cell r "start") down); reflexivity.
  - destruct (py_eq (cell r "strand") (PStr "-")); [|reflexivity].
    destruct (py_sub (cell r "start") down); [|reflexivity]. cbn [rbind].
    destruct (py_add (cell r "start") up); reflexivity.
Qed.

(** What a returned [Region] tells about the input. *)
Lemma do_gff3_stuff_Ok_inv region :
  do_gff3_stuff principal id_column identifier up down = Ok region ->
  exists r,
    first_start_codon principal = Some r /\
    chrom region = cell r "seqname" /\
    name region = PStr identifier /\
    score region = PStr "." /\
    strand region = cell r "strand" /\
    ((cell r "strand" = PStr "+" /\
      py_sub (cell r "start") up = Ok (start region) /\
      py_add (cell r "start") down = Ok (end_ region)) \/
     (cell r "strand" = PStr "-" /\
      py_sub (cell r "start") down = Ok (start region) /\
      py_add (cell r "start") up = Ok (end_ region))).
Proof.
  rewrite do_gff3_stuff_unfold.
  repeat (case_decide; [|discriminate]).
  destruct (first_start_codon principal) as [r|]; [|discriminate].
  repeat (case_decide; [|discriminate]).
  unfold region_of_row. intros Hok. exists r. split; [reflexivity|].
  destruct (py_eq (cell r "strand") (PStr "+")) eqn:Ep.
  - apply py_eq_PStr in Ep.
    destruct (py_sub (cell r "start") up) as [a|]; [|discriminate].
    destruct (py_add (cell r "start") down) as [b|]; [|discriminate].
    cbn [rbind] in Hok. injection Hok as <-. cbn. auto 10.
  - destruct (py_eq (cell r "strand") (PStr "-")) eqn:Em; [|discriminate].
    apply py_eq_PStr in Em.
    destruct (py_sub (cell r "start") down) as [a|]; [|discriminate].
    destruct (py_add (cell r "start") up) as [b|]; [|discriminate].
    cbn [rbind] in Hok. injection Hok as <-. cbn. auto 10.
Qed.

Hypothesis Hfeature : "feature" ∈ columns principal.
Hypothesis Hstart : "start" ∈ columns principal.
Hypothesis Hseqname : "seqname" ∈ columns principal.
Hypothesis Hstrand : "strand" ∈ columns principal.

Lemma do_gff3_stuff_first r :
  first_start_codon principal = Some r ->
  do_gff3_stuff principal id_column identifier up down = region_of_row identifier up down r.
Proof.
  intros H. rewrite do_gff3_stuff_unfold, H.
  rewrite !decide_True by assumption. reflexivity.
Qed.

Lemma do_gff3_stuff_plus r CDS :
  first_start_codon principal = Some r ->
  cell r "start" = PInt CDS -> cell r "strand" = PStr "+" ->
  do_gff3_stuff principal id_column identifier up down =
  Ok (mkRegion (cell r "seqname") (PInt (CDS - up)) (PInt (CDS + down))
        (PStr identifier) (PStr ".") (PStr "+")).
Proof.
  intros H Hs Hp. rewrite (do_gff3_stuff_first r H). unfold region_of_row.
  rewrite Hs, Hp. reflexivity.
Qed.

Lemma do_gff3_stuff_minus r CDS :
  first_start_codon principal = Some r ->
  cell r "start" = PInt CDS -> cell r "strand" = PStr "-" ->
  do_gff3_stuff principal id_column identifier up down =
  Ok (mkRegion (cell r "seqname") (PInt (CDS - down)) (PInt (CDS + up))
        (PStr identifier) (PStr ".") (PStr "-")).
Proof.
  intros H Hs Hp. rewrite (do_gff3_stuff_first r H). unfold region_of_row.
  rewrite Hs, Hp. reflexivity.
Qed.

Lemma do_gff3_stuff_other_strand r :
  first_start_codon principal = Some r ->
  cell r "strand" <> PStr "+" -> cell r "strand" <> PStr "-" ->
  do_gff3_stuff principal id_column identifier up down =
  Raise (UnboundLocalError "bed_start").
Proof.
  intros H Hp Hm. rewrite (do_gff3_stuff_first r H). unfold region_of_row.
  destruct (py_eq (cell r "strand") (PStr "+")) eqn:Ep;
    [apply py_eq_PStr in Ep; contradiction|].
  destruct (py_eq (cell r "strand") (PStr "-")) eqn:Em;
    [apply py_eq_PStr in Em; contradiction|].
  reflexivity.
Qed.

End Promoter.

(* ===================================================================== *)
(** * The promoter interval                                               *)
(* ===================================================================== *)

Section PromoterClaims.

(** C2.  Let the first [start_codon] row of the frame have start
    coordinate [CDS].  On strand ["+"] the Region starts at [CDS - up]
    and ends at [CDS + down]; on strand ["-"] it starts at [CDS - down]
    and ends at [CDS + up].  In particular a start codon at 1000 on the
    minus strand with [up = 1000] and [down = 500] gives start 500 and
    end 2000. *)
Theorem do_gff3_stuff_strand_aware
    (principal : DataFrame) (id_column identifier : string) (up down : Z)
    (r : gmap string pyval) (CDS : Z) :
  "feature" ∈ columns principal -> "start" ∈ columns principal ->
  "seqname" ∈ columns principal -> "strand" ∈ columns principal ->
  first_start_codon principal = Some r ->
  cell r "start" = PInt CDS ->
  (cell r "strand" = PStr "+" ->
   do_gff3_stuff principal id_column identifier up down =
   Ok (mkRegion (cell r "seqname") (PInt (CDS - up)) (PInt (CDS + down))
         (PStr identifier) (PStr ".") (PStr "+"))) /\
  (cell r "strand" = PStr "-" ->
   do_gff3_stuff principal id_column identifier up down =
   Ok (mkRegion (cell r "seqname") (PInt (CDS - down)) (PInt (CDS + up))
         (PStr identifier) (PStr ".") (PStr "-"))) /\
  (cell r "strand" = PStr "-" -> CDS = 1000 -> up = 1000 -> down = 500 ->
   exists region,
     do_gff3_stuff principal id_column identifier up down = Ok region /\
     start region = PInt 500 /\ end_ region = PInt 2000).
Proof.
  intros Hf Hs Hq Ht Hr Hc. split; [|split].
  - intros Hp. apply (do_gff3_stuff_plus _ _ _ _ _ Hf Hs Hq Ht r CDS Hr Hc Hp).
  - intros Hm. apply (do_gff3_stuff_minus _ _ _ _ _ Hf Hs Hq Ht r CDS Hr Hc Hm).
  - intros Hm -> -> ->. eexists. split.
    + apply (do_gff3_stuff_minus _ _ _ _ _ Hf Hs Hq Ht r 1000 Hr Hc Hm).
    + split; reflexivity.
Qed.

(** Example 6 of the specification on the sample annotation. *)
Lemma do_gff3_stuff_strand_aware_witness :
  do_gff3_stuff tp53_annot "gene_name" "TP53" 1000 500 =
  Ok (mkRegion (PStr "chr17") (PInt 500) (PInt 2000) (PStr "TP53") (PStr ".")
        (PStr "-")).
Proof.
  refine (proj1 (proj2 (do_gff3_stuff_strand_aware tp53_annot "gene_name" "TP53"
                          1000 500
                          (gff3_row "chr17" 1000 1002 "-" "start_codon"
                             "ENSG00000141510" "TP53" "ENST00000269305" (Some "1"))
                          1000 _ _ _ _ _ _)) _);
    try in_columns; vm_compute; reflexivity.
Defined.

(** C6.  Whatever the strand, ["+"] or ["-"], the Region spans
    [up + down]: [end - start = up + down]. *)
Theorem do_gff3_stuff_span
    (principal : DataFrame) (id_column identifier : string) (up down : Z)
    (r : gmap string pyval) (CDS : Z) :
  "feature" ∈ columns principal -> "start" ∈ columns principal ->
  "seqname" ∈ columns principal -> "strand" ∈ columns principal ->
  first_start_codon principal = Some r ->
  cell r "start" = PInt CDS ->
  cell r "strand" = PStr "+" \/ cell r "strand" = PStr "-" ->
  exists region a b,
    do_gff3_stuff principal id_column identifier up down = Ok region /\
    start region = PInt a /\ end_ region = PInt b /\
    b - a = up + down.
Proof.
  intros Hf Hs Hq Ht Hr Hc [Hp|Hm].
  - eexists _, (CDS - up), (CDS + down). split.
    + apply (do_gff3_stuff_plus _ _ _ _ _ Hf Hs Hq Ht r CDS Hr Hc Hp).
    + cbn. repeat split. lia.
  - eexists _, (CDS - down), (CDS + up). split.
    + apply (do_gff3_stuff_minus _ _ _ _ _ Hf Hs Hq Ht r CDS Hr Hc Hm).
    + cbn. repeat split. lia.
Qed.

(** The span of the plus-strand sample is 1500. *)
Lemma do_gff3_stuff_span_witness :
  exists region a b,
    do_gff3_stuff brca2_annot "gene_name" "BRCA2" 1000 500 = Ok region /\
    start region = PInt a /\ end_ region = PInt b /\
    b - a = 1000 + 500.
Proof.
  refine (do_gff3_stuff_span brca2_annot "gene_name" "BRCA2" 1000 500
            (gff3_row "chr13" 1000 1002 "+" "start_codon"
               "ENSG00000139618" "BRCA2" "ENST00000380152" (Some "1"))
            1000 _ _ _ _ _ _ _);
    try in_columns; vm_compute; reflexivity.
Defined.

Lemma py_sub_PInt v n a : py_sub v n = Ok (PInt a) -> exists z, v = PInt z /\ a = z - n.
Proof.
  destruct v as [| |z|s]; simpl; intros H; try discriminate.
  injection H as <-. eauto.
Qed.

Lemma py_add_PInt v n b : py_add v n = Ok (PInt b) -> exists z, v = PInt z /\ b = z + n.
Proof.
  destruct v as [| |z|s]; simpl; intros H; try discriminate.
  injection H as <-. eauto.
Qed.

(** On the minus strand the two bounds are [CDS - down] and [CDS + up]. *)
Lemma minus_strand_bounds principal id_column identifier up down r region a b :
  first_start_codon principal = Some r ->
  cell r "strand" = PStr "-" ->
  do_gff3_stuff principal id_column identifier up down = Ok region ->
  start region = PInt a -> end_ region = PInt b ->
  exists CDS, cell r "start" = PInt CDS /\ a = CDS - down /\ b = CDS + up.
Proof.
  intros Hr Hm Hok Ha Hb.
  apply do_gff3_stuff_Ok_inv in Hok as (r' & Hr' & _ & _ & _ & _ & Hcase).
  rewrite Hr in Hr'. injection Hr' as <-.
  destruct Hcase as [(Hp & _) | (_ & Hsub & Hadd)]; [congruence|].
  rewrite Ha in Hsub. rewrite Hb in Hadd.
  apply py_sub_PInt in Hsub as (z & Hz & ->).
  apply py_add_PInt in Hadd as (z' & Hz' & ->).
  exists z. split; [exact Hz|]. split; [reflexivity|]. congruence.
Qed.

(** C8, as stated, does not hold: with nonnegative [up] and [down] no
    minus-strand Region has its start beyond its end. *)
Lemma minus_strand_never_inverted :
  ~ exists principal id_column identifier up down r region a b,
      first_start_codon principal = Some r /\
      cell r "strand" = PStr "-" /\
      0 <= up /\ 0 <= down /\ up <> down /\
      do_gff3_stuff principal id_column identifier up down = Ok region /\
      start region = PInt a /\ end_ region = PInt b /\
      a > b.
Proof.
  intros (principal & id_column & identifier & up & down & r & region & a & b &
          Hr & Hm & Hup & Hdown & _ & Hok & Ha & Hb & Hgt).
  destruct (minus_strand_bounds _ _ _ _ _ _ _ _ _ Hr Hm Hok Ha Hb)
    as (CDS & _ & -> & ->).
  lia.
Qed.

(** C8, amended.  For a minus-strand start codon the Region has
    [start > end] exactly when [up + down < 0]; with nonnegative [up] and
    [down] it has [start <= end]. *)
Theorem minus_strand_order
    (principal : DataFrame) (id_column identifier : string) (up down : Z)
    (r : gmap string pyval) (region : Region) (a b : Z) :
  first_start_codon principal = Some r ->
  cell r "strand" = PStr "-" ->
  do_gff3_stuff principal id_column identifier up down = Ok region ->
  start region = PInt a -> end_ region = PInt b ->
  (a > b <-> up + down < 0) /\ (0 <= up -> 0 <= down -> a <= b).
Proof.
  intros Hr Hm Hok Ha Hb.
  destruct (minus_strand_bounds _ _ _ _ _ _ _ _ _ Hr Hm Hok Ha Hb)
    as (CDS & _ & -> & ->).
  split; [split|]; lia.
Qed.

(** The sample Region runs from 500 to 2000. *)
Lemma minus_strand_order_witness :
  do_gff3_stuff tp53_annot "gene_name" "TP53" 1000 500 =
    Ok (mkRegion (PStr "chr17") (PInt 500) (PInt 2000) (PStr "TP53") (PStr ".")
          (PStr "-")) /\
  (500 > 2000 <-> 1000 + 500 < 0) /\ (0 <= 1000 -> 0 <= 500 -> 500 <= 2000).
Proof.
  split; [vm_compute; reflexivity|].
  refine (minus_strand_order tp53_annot "gene_name" "TP53" 1000 500
            (gff3_row "chr17" 1000 1002 "-" "start_codon"
               "ENSG00000141510" "TP53" "ENST00000269305" (Some "1"))
            (mkRegion (PStr "chr17") (PInt 500) (PInt 2000) (PStr "TP53") (PStr ".")
               (PStr "-"))
            500 2000 _ _ _ _ _); vm_compute; reflexivity.
Defined.

(** A negative offset does invert the interval. *)
Lemma minus_strand_inverted_by_negative_offset :
  do_gff3_stuff tp53_annot "gene_name" "TP53" (-1000) 500 =
  Ok (mkRegion (PStr "chr17") (PInt 500) (PInt 0) (PStr "TP53") (PStr ".")
        (PStr "-")).
Proof. vm_compute. reflexivity. Qed.

(** C9.  When the strand of the first [start_codon] row is neither ["+"]
    nor ["-"], [bed_start] and [bed_end] are never assigned and
    [do_gff3_stuff] raises instead of returning; a Region is returned
    only for one of the two strands. *)
Theorem do_gff3_stuff_requires_strand
    (principal : DataFrame) (id_column identifier : string) (up down : Z)
    (r : gmap string pyval) :
  "feature" ∈ columns principal -> "start" ∈ columns principal ->
  "seqname" ∈ columns principal -> "strand" ∈ columns principal ->
  first_start_codon principal = Some r ->
  (cell r "strand" <> PStr "+" -> cell r "strand" <> PStr "-" ->
   do_gff3_stuff principal id_column identifier up down =
   Raise (UnboundLocalError "bed_start")) /\
  (forall region,
     do_gff3_stuff principal id_column identifier up down = Ok region ->
     cell r "strand" = PStr "+" \/ cell r "strand" = PStr "-").
Proof.
  intros Hf Hs Hq Ht Hr. split.
  - intros Hp Hm.
    apply (do_gff3_stuff_other_strand _ _ _ _ _ Hf Hs Hq Ht r Hr Hp Hm).
  - intros region Hok.
    apply do_gff3_stuff_Ok_inv in Hok as (r' & Hr' & _ & _ & _ & _ & Hcase).
    rewrite Hr in Hr'. injection Hr' as <-.
    destruct Hcase as [(Hp & _) | (Hm & _)]; auto.
Qed.

(** A start codon with strand ["."]. *)
Lemma do_gff3_stuff_requires_strand_witness :
  do_gff3_stuff unstranded_annot "gene_name" "GENE1" 1000 500 =
  Raise (UnboundLocalError "bed_start").
Proof.
  refine (proj1 (do_gff3_stuff_requires_strand unstranded_annot "gene_name" "GENE1"
                   1000 500
                   (gff3_row "chr1" 1000 1002 "." "start_codon"
                      "ENSG00000000001" "GENE1" "ENST00000000001" (Some "1"))
                   _ _ _ _ _) _ _);
    try in_columns; try (vm_compute; reflexivity);
    intros E; vm_compute in E; discriminate E.
Defined.

End PromoterClaims.

(* ===================================================================== *)
(** * The loop of main                                                    *)
(* ===================================================================== *)

Section MainLoop.

Lemma bind_Ok_inv {A B : Type} (m : M A) (f : A -> M B) out b :
  bind m f = (out, Ok b) ->
  exists o1 a o2, m = (o1, Ok a) /\ f a = (o2, Ok b) /\ out = o1 ++ o2.
Proof.
  destruct m as [o1 [a|e]]; simpl; [|discriminate].
  destruct (f a) as [o2 r] eqn:Ef. intros [= <- ->]. eauto 6.
Qed.

Lemma bind_Raise {A B : Type} (m : M A) (f : A -> M B) out e :
  m = (out, Raise e) -> bind m f = (out, Raise e).
Proof. intros ->. reflexivity. Qed.

Lemma liftR_Ok_inv {A : Type} (r : result A) out a :
  liftR r = (out, Ok a) -> r = Ok a /\ out = [].
Proof. unfold liftR. intros [= <- ->]. auto. Qed.

(** An exception raised in one turn ends the loop: the identifiers after
    it are not looked at. *)
Lemma for_each_raise {A : Type} (f : A -> M unit) x rest out e :
  f x = (out, Raise e) -> for_each f (x :: rest) = (out, Raise e).
Proof. intros H. cbn [for_each]. apply bind_Raise. exact H. Qed.

(** An identifier that [decode_id] does not understand: the warning is
    printed, then the lookup [id_gff3_names[None]] raises. *)
Lemma main_body_unknown tool annot principals fasta up down identifier :
  re_search pat_ENST identifier = false ->
  re_search pat_ENSG identifier = false ->
  re_search pat_UCSC identifier = false ->
  re_search pat_REFSEQ identifier = false ->
  re_search pat_SYMBOL identifier = false ->
  main_body tool annot principals fasta up down identifier =
  ([Stdout ("[* ] I was unable to understand your gene id: " +:+ identifier)],
   Raise (KeyError "None")).
Proof.
  intros H1 H2 H3 H4 H5. unfold main_body, decode_id.
  rewrite H1, H2, H3, H4, H5. reflexivity.
Qed.

Lemma placeholder_lookups :
  dict_getitem id_gff3_names (Some UCSC) = Ok "TBD" /\
  dict_getitem id_gff3_names (Some REFSEQ) = Ok "TBD" /\
  dict_getitem id_descriptions (Some UCSC) = Ok "UCSC transcript id" /\
  dict_getitem id_descriptions (Some REFSEQ) = Ok "NCBI Refseq id".
Proof. vm_compute. repeat split. Qed.

(** A RefSeq or UCSC identifier: its lookup column is the placeholder
    ["TBD"], and an annotation without such a column makes the turn end
    in a [KeyError] raised by [validate_identifier]. *)
Lemma main_body_placeholder_column tool annot principals fasta up down identifier k :
  decode_id identifier = ret (Some k) ->
  k = UCSC \/ k = REFSEQ ->
  "TBD" ∉ columns annot ->
  exists description,
    dict_getitem id_descriptions (Some k) = Ok description /\
    main_body tool annot principals fasta up down identifier =
    ([Stdout ("[ok] " +:+ identifier +:+ " => " +:+ description)],
     Raise (KeyError "TBD")).
Proof.
  intros Hd Hk Hcol. unfold main_body. rewrite Hd.
  destruct placeholder_lookups as (G1 & G2 & D1 & D2).
  destruct Hk as [-> | ->].
  - exists "UCSC transcript id". split; [exact D1|].
    cbn [ret bind app]. rewrite G1. cbn [liftR bind app id_truthy UCSC Z.eqb negb].
    rewrite D1. cbn [liftR bind app info print].
    rewrite validate_identifier_unknown_column by exact Hcol. reflexivity.
  - exists "NCBI Refseq id". split; [exact D2|].
    cbn [ret bind app]. rewrite G2. cbn [liftR bind app id_truthy REFSEQ Z.eqb negb].
    rewrite D2. cbn [liftR bind app info print].
    rewrite validate_identifier_unknown_column by exact Hcol. reflexivity.
Qed.

(** C4.  An identifier that matches none of the five patterns is warned
    about, and then the run ends in [KeyError]: the identifier is not
    skipped, and the identifiers after it in the batch are not
    processed. *)
Theorem unknown_identifier_aborts_batch
    (tool : extractor) (annot principals : DataFrame) (fasta : string) (up down : Z)
    (identifier : string) (rest : list string) :
  re_search pat_ENST identifier = false ->
  re_search pat_ENSG identifier = false ->
  re_search pat_UCSC identifier = false ->
  re_search pat_REFSEQ identifier = false ->
  re_search pat_SYMBOL identifier = false ->
  decode_id identifier =
    ([Stdout ("[* ] I was unable to understand your gene id: " +:+ identifier)],
     Ok None) /\
  for_each (main_body tool annot principals fasta up down) (identifier :: rest) =
    ([Stdout ("[* ] I was unable to understand your gene id: " +:+ identifier)],
     Raise (KeyError "None")).
Proof.
  intros H1 H2 H3 H4 H5. split.
  - unfold decode_id. rewrite H1, H2, H3, H4, H5. reflexivity.
  - apply for_each_raise. apply main_body_unknown; assumption.
Qed.

(** The batch ["?"; "TP53"]. *)
Lemma unknown_identifier_aborts_batch_witness :
  for_each (main_body bedtools_ok tp53_annot tp53_annot "hg38.fa" 1000 500) ["?"; "TP53"] =
    ([Stdout "[* ] I was unable to understand your gene id: ?"],
     Raise (KeyError "None")).
Proof.
  refine (proj2 (unknown_identifier_aborts_batch bedtools_ok tp53_annot tp53_annot
                   "hg38.fa"
                   1000 500 "?" ["TP53"] _ _ _ _ _));
    vm_compute; reflexivity.
Defined.

(** The same batch through [main]: nothing is extracted, although
    ["TP53"] on its own is. *)
Lemma main_unknown_then_known :
  main bedtools_ok tp53_annot "hg38.fa" 1000 500 ["?"; "TP53"] =
    ([Stdout ("[ok] probing genes" +:+ String "010" EmptyString);
      Stdout "[* ] I was unable to understand your gene id: ?"],
     Raise (KeyError "None")) /\
  main bedtools_ok tp53_annot "hg38.fa" 1000 500 ["TP53"] =
    ([Stdout ("[ok] probing genes" +:+ String "010" EmptyString);
      Stdout "[ok] TP53 => Official gene symbol";
      RunBedtools
        (mkRegion (PStr "chr17") (PInt 500) (PInt 2000) (PStr "TP53") (PStr ".")
           (PStr "-"))
        "TP53" "hg38.fa" "TP53.fa";
      Stdout EmptyString],
     Ok tt).
Proof. vm_compute. split; reflexivity. Qed.

(** The RefSeq identifier ["NM_000546"] on the sample annotation: it is
    looked up in the column ["TBD"], the annotation has no such column,
    and [validate_identifier] raises [KeyError] instead of returning
    [False]; no warning is printed and the batch ends there. *)
Lemma placeholder_lookup_is_not_a_failed_validation :
  decode_id "NM_000546" = ret (Some REFSEQ) /\
  dict_getitem id_gff3_names (Some REFSEQ) = Ok "TBD" /\
  validate_identifier tp53_annot "TBD" "NM_000546" = ([], Raise (KeyError "TBD")) /\
  (~ exists w, validate_identifier tp53_annot "TBD" "NM_000546" = (w, Ok false)) /\
  main bedtools_ok tp53_annot "hg38.fa" 1000 500 ["NM_000546"; "TP53"] =
    ([Stdout ("[ok] probing genes" +:+ String "010" EmptyString);
      Stdout "[ok] NM_000546 => NCBI Refseq id"],
     Raise (KeyError "TBD")).
Proof.
  split; [vm_compute; reflexivity|].
  split; [vm_compute; reflexivity|].
  split; [vm_compute; reflexivity|].
  split; [|vm_compute; reflexivity].
  intros [w H]. vm_compute in H. discriminate H.
Qed.

(** C5.  An identifier classified as UCSC or RefSeq is looked up in the
    placeholder column ["TBD"].  On an annotation that has no column of
    that name the lookup does not fail validation: [validate_identifier]
    raises [KeyError], prints no warning and returns nothing, and the
    loop of [main] ends with that exception, whatever identifiers
    follow. *)
Theorem placeholder_column_raises
    (tool : extractor) (annot principals : DataFrame) (fasta : string) (up down : Z)
    (identifier : string) (k : Z) (rest : list string) :
  decode_id identifier = ret (Some k) ->
  k = UCSC \/ k = REFSEQ ->
  "TBD" ∉ columns annot ->
  dict_getitem id_gff3_names (Some k) = Ok "TBD" /\
  validate_identifier annot "TBD" identifier = ([], Raise (KeyError "TBD")) /\
  exists description,
    dict_getitem id_descriptions (Some k) = Ok description /\
    for_each (main_body tool annot principals fasta up down) (identifier :: rest) =
    ([Stdout ("[ok] " +:+ identifier +:+ " => " +:+ description)],
     Raise (KeyError "TBD")).
Proof.
  intros Hd Hk Hcol.
  destruct placeholder_lookups as (G1 & G2 & _ & _).
  split; [destruct Hk as [-> | ->]; assumption|].
  split; [apply validate_identifier_unknown_column; exact Hcol|].
  destruct (main_body_placeholder_column tool annot principals fasta up down
              identifier k Hd Hk Hcol) as (description & Hdesc & Hbody).
  exists description. split; [exact Hdesc|].
  apply for_each_raise. exact Hbody.
Qed.

(** The RefSeq identifier of the sample run. *)
Lemma placeholder_column_raises_witness :
  validate_identifier tp53_annot "TBD" "NM_000546" = ([], Raise (KeyError "TBD")).
Proof.
  refine (proj1 (proj2 (placeholder_column_raises bedtools_ok tp53_annot tp53_annot
                          "hg38.fa"
                          1000 500 "NM_000546" REFSEQ ["TP53"] _ _ _))).
  - vm_compute. reflexivity.
  - right. reflexivity.
  - intros Hin. apply (bool_decide_pack _) in Hin. vm_compute in Hin. exact Hin.
Defined.

(** The only falsy Region is one without a truthy field, such as
    [Region()]. *)
Lemma Region_default_falsy : Region_bool Region_default = false.
Proof. reflexivity. Qed.

Lemma do_gff3_stuff_truthy principal id_column identifier up down region :
  do_gff3_stuff principal id_column identifier up down = Ok region ->
  score region = PStr "." /\ Region_bool region = true.
Proof.
  intros H. apply do_gff3_stuff_Ok_inv in H as (r & _ & _ & _ & Hscore & _).
  split; [exact Hscore|]. unfold Region_bool. cbn [existsb]. rewrite Hscore.
  cbn [truthy String.eqb negb]. rewrite !orb_true_r. reflexivity.
Qed.

(** A turn that ends normally: the lookup column is the one of the
    identifier's kind, and when the validation with that column
    succeeded, the turn went on to [do_gff3_stuff] and from its Region
    straight to the extractor. *)
Lemma main_body_Ok_inv tool annot principals fasta up down identifier out :
  main_body tool annot principals fasta up down identifier = (out, Ok tt) ->
  exists o id_type id_column w valid,
    decode_id identifier = (o, Ok id_type) /\
    dict_getitem id_gff3_names id_type = Ok id_column /\
    validate_identifier annot id_column identifier = (w, Ok valid) /\
    (valid = true ->
     exists frame region pre,
       do_gff3_stuff frame id_column identifier up down = Ok region /\
       Region_bool region = true /\
       out = pre ++ [RunBedtools region identifier fasta (identifier +:+ ".fa");
                     Stdout EmptyString]).
Proof.
  unfold main_body. intros H.
  apply bind_Ok_inv in H as (o1 & id_type & ? & Hd & H & ->).
  apply bind_Ok_inv in H as (o2 & id_column & ? & Hc & H & ->).
  apply bind_Ok_inv in H as (o3 & _u & ? & _ & H & ->).
  apply bind_Ok_inv in H as (o4 & valid & ? & Hv & H & ->).
  apply liftR_Ok_inv in Hc as [Hc ->].
  exists o1, id_type, id_column, o4, valid.
  split; [exact Hd|]. split; [exact Hc|]. split; [exact Hv|].
  intros ->. cbn [negb] in H.
  apply bind_Ok_inv in H as (o5 & pcol & ? & _ & H & ->).
  apply bind_Ok_inv in H as (o6 & tids & ? & _ & H & ->).
  apply bind_Ok_inv in H as (o7 & primary & ? & _ & H & ->).
  apply bind_Ok_inv in H as (o8 & tcol & ? & _ & H & ->).
  apply bind_Ok_inv in H as (o9 & region & ? & Hr & H & ->).
  apply liftR_Ok_inv in Hr as [Hr ->].
  destruct (do_gff3_stuff_truthy _ _ _ _ _ _ Hr) as [_ Hb].
  rewrite Hb in H. cbn [negb] in H. unfold bedtools_cmd, print in H.
  destruct (tool region identifier fasta (identifier +:+ ".fa")); cbn in H;
    [discriminate|]. injection H as <-.
  eexists _, region, (o1 ++ [] ++ o3 ++ o4 ++ o5 ++ o6 ++ o7 ++ o8).
  split; [exact Hr|]. split; [exact Hb|].
  rewrite <- !app_assoc. reflexivity.
Qed.

(** C10.  A Region returned by [do_gff3_stuff] has score ["."] and is
    therefore truthy, so [main] never skips a Region it got from
    [do_gff3_stuff]: in a turn of the loop that ends normally after the
    validation of the identifier (with the lookup column of its kind)
    has succeeded, the Region of [do_gff3_stuff] has been handed to the
    extractor. *)
Theorem region_always_truthy
    (principal : DataFrame) (id_column identifier : string) (up down : Z)
    (region : Region) :
  do_gff3_stuff principal id_column identifier up down = Ok region ->
  (score region = PStr "." /\ Region_bool region = true) /\
  (forall tool annot principals fasta out,
     main_body tool annot principals fasta up down identifier = (out, Ok tt) ->
     exists o id_type id_column' w valid,
       decode_id identifier = (o, Ok id_type) /\
       dict_getitem id_gff3_names id_type = Ok id_column' /\
       validate_identifier annot id_column' identifier = (w, Ok valid) /\
       (valid = true ->
        exists frame region' pre,
          do_gff3_stuff frame id_column' identifier up down = Ok region' /\
          Region_bool region' = true /\
          out = pre ++ [RunBedtools region' identifier fasta (identifier +:+ ".fa");
                        Stdout EmptyString])).
Proof.
  intros H. split.
  - exact (do_gff3_stuff_truthy _ _ _ _ _ _ H).
  - intros tool annot principals fasta out. apply main_body_Ok_inv.
Qed.

(** The sample Region is truthy. *)
Lemma region_always_truthy_witness :
  Region_bool
    (mkRegion (PStr "chr17") (PInt 500) (PInt 2000) (PStr "TP53") (PStr ".")
       (PStr "-")) = true.
Proof.
  refine (proj2 (proj1 (region_always_truthy tp53_annot "gene_name" "TP53" 1000 500
                          _ _))).
  vm_compute. reflexivity.
Defined.

End MainLoop.

(* ===================================================================== *)
(** * Further properties of validate_identifier                           *)
(* ===================================================================== *)

Section ValidationMore.

Lemma same_elements_empty {A : Type} (l k : list A) :
  (forall x, x ∈ l <-> x ∈ k) -> (length l =? 0)%nat = (length k =? 0)%nat.
Proof.
  intros H. destruct l as [|x l], k as [|y k]; try reflexivity.
  - exfalso. apply (not_elem_of_nil y). apply H. left.
  - exfalso. apply (not_elem_of_nil x). apply H. left.
Qed.

Lemma same_elements_distinct {A : Type} `{EqDecision A} (l k : list A) :
  (forall x, x ∈ l <-> x ∈ k) ->
  length (remove_dups l) = length (remove_dups k).
Proof.
  intros H. apply Permutation_length.
  apply NoDup_Permutation; try apply NoDup_remove_dups.
  intros x. rewrite !elem_of_remove_dups. apply H.
Qed.

(** X1.  [validate_identifier] looks only at which rows hold the
    identifier in the lookup column: two annotations with the same
    columns in which the same rows do so get the same verdict and the
    same warning, whatever the order of their rows, however often a row
    is repeated and whatever the other rows are. *)
Theorem validate_identifier_rows_only
    (a b : DataFrame) (id_column identifier : string) :
  columns a = columns b ->
  id_column ∈ columns a -> "appris_principal" ∈ columns a ->
  "feature" ∈ columns a -> "start" ∈ columns a -> "end" ∈ columns a ->
  (forall r, cell r id_column = PStr identifier -> r ∈ rows a <-> r ∈ rows b) ->
  validate_identifier a id_column identifier =
  validate_identifier b id_column identifier.
Proof.
  intros Hc H1 H2 H3 H4 H5 Hrows.
  rewrite (validate_identifier_unfold a) by assumption.
  rewrite (validate_identifier_unfold b) by (rewrite <- Hc; assumption).
  assert (Hfor : forall r, r ∈ rows_for a id_column identifier <->
                           r ∈ rows_for b id_column identifier).
  { intros r. unfold rows_for. rewrite !list_elem_of_filter.
    split; intros [Hid Hr]; (split; [exact Hid|]); apply (Hrows r Hid); exact Hr. }
  assert (Hpsc : forall r, r ∈ principal_start_codons a id_column identifier <->
                           r ∈ principal_start_codons b id_column identifier).
  { intros r. unfold principal_start_codons. rewrite !list_elem_of_filter, Hfor.
    reflexivity. }
  assert (Hn : distinct_coords a id_column identifier =
               distinct_coords b id_column identifier).
  { unfold distinct_coords. apply same_elements_distinct. intros p.
    rewrite !list_elem_of_fmap. split; intros (r & -> & Hr); exists r;
      (split; [reflexivity|]); apply Hpsc; exact Hr. }
  rewrite (same_elements_empty _ _ Hfor), Hn. reflexivity.
Qed.

(** The shuffled sample validates like the sample. *)
Lemma validate_identifier_rows_only_witness :
  validate_identifier tp53_annot "gene_name" "TP53" =
  validate_identifier tp53_annot_shuffled "gene_name" "TP53".
Proof.
  apply validate_identifier_rows_only; try reflexivity; try in_columns.
  intros r Hr. unfold tp53_annot, tp53_annot_shuffled; cbn [rows].
  rewrite !elem_of_cons, !elem_of_nil. split.
  - intros [->|[->|[]]]; auto.
  - intros [->|[->|[->|[->|[]]]]]; auto.
    vm_compute in Hr. discriminate Hr.
Defined.

(** What [validate_identifier] prints: nothing, or one warning. *)
Lemma validate_identifier_output annot id_column identifier :
  fst (validate_identifier annot id_column identifier) = [] \/
  exists msg,
    fst (validate_identifier annot id_column identifier) =
    [Stdout ("[* ] " +:+ msg)].
Proof.
  unfold validate_identifier, getitem, dropna, getitems, check_labels, liftR.
  cbn [columns rows mask].
  repeat (case_decide; cbn [bind rbind app fst]; [|left; reflexivity]).
  repeat match goal with
         | |- context [if ?b then _ else _] => destruct b
         end; cbn; eauto.
Qed.

End ValidationMore.

(* ===================================================================== *)
(** * The principal isoform                                               *)
(* ===================================================================== *)

Section PrincipalIsoform.

Lemma norm_null_PStr v s : norm_null v = PStr s <-> v = PStr s.
Proof. destruct v; unfold norm_null; simpl; split; congruence. Qed.

Lemma row_key_cell cs c r r' :
  c ∈ cs -> row_key cs r = row_key cs r' ->
  norm_null (cell r c) = norm_null (cell r' c).
Proof.
  unfold row_key. induction cs as [|d cs IH]; intros Hc Hk.
  - apply elem_of_nil in Hc. destruct Hc.
  - cbn [fmap list_fmap] in Hk. injection Hk as Hd Hk.
    apply elem_of_cons in Hc as [->|Hc]; [exact Hd | apply IH; assumption].
Qed.

(** Whether a row holds the identifier in a column of the key depends on
    the key only. *)
Lemma holds_identifier_key cs c s r r' :
  c ∈ cs -> row_key cs r = row_key cs r' ->
  cell r c = PStr s -> cell r' c = PStr s.
Proof.
  intros Hc Hk H. apply norm_null_PStr. rewrite <- (row_key_cell cs c r r' Hc Hk).
  apply norm_null_PStr. exact H.
Qed.

(** [drop_duplicates] keeps the first row of every key, so the first row
    with a property of the key is the same before and after. *)
Lemma head_filter_dedup cs (P : gmap string pyval -> Prop)
    `{!forall r, Decision (P r)} seen l :
  (forall r r', row_key cs r = row_key cs r' -> P r -> P r') ->
  head (filter P (dedup cs seen l)) =
  head (filter (fun r => P r /\ row_key cs r ∉ seen) l).
Proof.
  intros Hkey. revert seen. induction l as [|r l IH]; intros seen; [reflexivity|].
  cbn [dedup]. destruct (decide (row_key cs r ∈ seen)) as [Hin|Hnin].
  - rewrite IH. rewrite (filter_cons_False _ r) by tauto. reflexivity.
  - destruct (decide (P r)) as [HP|HP].
    + rewrite !filter_cons_True by tauto. reflexivity.
    + rewrite !filter_cons_False by tauto. rewrite IH. f_equal.
      apply list_filter_iff. intros x. rewrite not_elem_of_cons. split.
      * tauto.
      * intros [Hx Hs]. split; [exact Hx|]. split; [|exact Hs].
        intros E. apply HP. apply (Hkey x r E Hx).
Qed.

Lemma head_filter_drop_duplicates cs (P : gmap string pyval -> Prop)
    `{!forall r, Decision (P r)} l :
  (forall r r', row_key cs r = row_key cs r' -> P r -> P r') ->
  head (filter P (dedup cs [] l)) = head (filter P l).
Proof.
  intros Hkey. rewrite head_filter_dedup by exact Hkey. f_equal.
  apply list_filter_iff. intros x. rewrite elem_of_nil. tauto.
Qed.

Variable annot : DataFrame.

Hypothesis Happris : "appris_principal" ∈ columns annot.
Hypothesis Hgene_name : "gene_name" ∈ columns annot.
Hypothesis Hgene_id : "gene_id" ∈ columns annot.
Hypothesis Htranscript_name : "transcript_name" ∈ columns annot.
Hypothesis Htranscript_id : "transcript_id" ∈ columns annot.

Lemma principals_frame_Ok :
  principals_frame annot =
  Ok (mkDataFrame
        ["gene_name"; "gene_id"; "transcript_name"; "transcript_id";
         "appris_principal"]
        (dedup ["gene_name"; "gene_id"; "transcript_name"; "transcript_id";
                "appris_principal"] []
           (filter (fun r => isnull (cell r "appris_principal") = false)
              (rows annot)))).
Proof.
  unfold principals_frame, dropna, getitems, check_labels.
  rewrite decide_True by assumption. cbn [rbind columns rows].
  rewrite !decide_True by assumption. reflexivity.
Qed.

Lemma primary_isoform_head principals id_column identifier :
  principals_frame annot = Ok principals ->
  id_column ∈ real_lookup_columns ->
  primary_isoform principals id_column identifier =
  match head (principal_rows_for annot id_column identifier) with
  | Some r0 => Ok (cell r0 "transcript_id")
  | None => Raise IndexError
  end.
Proof.
  rewrite principals_frame_Ok. intros [= <-] Hcol.
  assert (Hfive : id_column ∈ ["gene_name"; "gene_id"; "transcript_name";
                               "transcript_id"; "appris_principal"]).
  { unfold real_lookup_columns in Hcol.
    rewrite !elem_of_cons, elem_of_nil in Hcol. rewrite !elem_of_cons.
    tauto. }
  unfold primary_isoform.
  rewrite getitem_Ok by (cbn [columns]; exact Hfive). cbn [rbind].
  rewrite mask_series_eq. cbn [columns rows].
  rewrite getitem_Ok by (cbn [columns]; rewrite !elem_of_cons; tauto).
  cbn [rbind rows]. rewrite values0_fmap.
  rewrite (head_filter_drop_duplicates _
             (fun r => cell r id_column = PStr identifier)).
  - reflexivity.
  - intros r r' Hk. apply (holds_identifier_key _ _ _ _ _ Hfive Hk).
Qed.

End PrincipalIsoform.

(* ===================================================================== *)
(** * A turn of the loop after a successful validation                    *)
(* ===================================================================== *)

Section ValidatedTurn.

Lemma real_kinds k :
  k = ENST \/ k = ENSG \/ k = SYMBOL ->
  exists col desc,
    dict_getitem id_gff3_names (Some k) = Ok col /\
    dict_getitem id_descriptions (Some k) = Ok desc /\
    id_truthy (Some k) = true /\
    col ∈ real_lookup_columns.
Proof.
  intros [-> | [-> | ->]].
  - exists "transcript_id", "ensembl! transcript".
    repeat split; try (vm_compute; reflexivity). in_columns.
  - exists "gene_id", "ensembl! gene".
    repeat split; try (vm_compute; reflexivity). in_columns.
  - exists "gene_name", "Official gene symbol".
    repeat split; try (vm_compute; reflexivity). in_columns.
Qed.

(** [True] is returned without a warning, and only when a principal
    start codon was found. *)
Lemma validate_identifier_true annot id_column identifier :
  id_column ∈ columns annot -> "appris_principal" ∈ columns annot ->
  "feature" ∈ columns annot -> "start" ∈ columns annot -> "end" ∈ columns annot ->
  snd (validate_identifier annot id_column identifier) = Ok true ->
  validate_identifier annot id_column identifier = ([], Ok true) /\
  exists r, r ∈ principal_start_codons annot id_column identifier.
Proof.
  intros H1 H2 H3 H4 H5.
  rewrite (validate_identifier_unfold annot id_column identifier H1 H2 H3 H4 H5).
  destruct (length (rows_for annot id_column identifier) =? 0)%nat; [discriminate|].
  destruct (distinct_coords annot id_column identifier =? 0)%nat eqn:E0;
    [discriminate|].
  destruct (1 <? distinct_coords annot id_column identifier)%nat; [discriminate|].
  intros _. split; [reflexivity|].
  apply Nat.eqb_neq in E0. unfold distinct_coords in E0.
  destruct (principal_start_codons annot id_column identifier) as [|r l].
  - exfalso. apply E0. reflexivity.
  - exists r. left.
Qed.

Lemma principal_start_codon_is_principal_row annot id_column identifier r :
  r ∈ principal_start_codons annot id_column identifier ->
  r ∈ principal_rows_for annot id_column identifier.
Proof.
  unfold principal_start_codons, principal_rows_for, rows_for.
  rewrite !list_elem_of_filter. tauto.
Qed.

(** The turn, once classification and validation have succeeded and the
    principal isoform is known. *)
Lemma main_body_valid tool annot principals fasta up down identifier k col desc w iso :
  decode_id identifier = ret (Some k) ->
  dict_getitem id_gff3_names (Some k) = Ok col ->
  dict_getitem id_descriptions (Some k) = Ok desc ->
  id_truthy (Some k) = true ->
  validate_identifier annot col identifier = (w, Ok true) ->
  primary_isoform principals col identifier = Ok iso ->
  "transcript_id" ∈ columns annot ->
  main_body tool annot principals fasta up down identifier =
  match do_gff3_stuff
          (mask annot (series_eq ((fun r => cell r "transcript_id") <$> rows annot)
                         iso))
          col identifier up down with
  | Ok region =>
      match tool region identifier fasta (identifier +:+ ".fa") with
      | None =>
          (Stdout ("[ok] " +:+ identifier +:+ " => " +:+ desc) :: w ++
           [RunBedtools region identifier fasta (identifier +:+ ".fa");
            Stdout EmptyString],
           Ok tt)
      | Some e =>
          (Stdout ("[ok] " +:+ identifier +:+ " => " +:+ desc) :: w ++
           [RunBedtools region identifier fasta (identifier +:+ ".fa")],
           Raise e)
      end
  | Raise e => (Stdout ("[ok] " +:+ identifier +:+ " => " +:+ desc) :: w, Raise e)
  end.
Proof.
  intros Hd Hcol Hdesc Ht Hv Hiso Htid. unfold main_body.
  rewrite Hd. cbn [ret bind app]. rewrite Hcol. cbn [liftR bind app].
  rewrite Ht, Hdesc. cbn [liftR bind app info print]. rewrite Hv.
  cbn [bind negb].
  unfold primary_isoform in Hiso.
  destruct (getitem principals col) as [pcol|]; [|discriminate]. cbn [rbind] in Hiso.
  destruct (getitem (mask principals (series_eq pcol (PStr identifier)))
              "transcript_id") as [tids|]; [|discriminate].
  cbn [rbind] in Hiso. rewrite Hiso. cbn [liftR bind app].
  rewrite (getitem_Ok _ _ Htid). cbn [liftR bind app].
  destruct (do_gff3_stuff _ col identifier up down) as [region|e] eqn:Er.
  - apply do_gff3_stuff_truthy in Er as [_ Hb]. rewrite Hb.
    cbn [negb liftR bind app]. unfold bedtools_cmd, print.
    destruct (tool region identifier fasta (identifier +:+ ".fa"));
      cbn; rewrite ?app_nil_r; reflexivity.
  - cbn. rewrite ?app_nil_r. reflexivity.
Qed.

Variable tool : extractor.
Variable annot : DataFrame.
Variable principals : DataFrame.
Variable fasta : string.
Variables up down : Z.
Variable identifier : string.

Hypothesis Hcolumns : gff3_columns ⊆ columns annot.
Hypothesis Hprincipals : principals_frame annot = Ok principals.

Lemma has_gff3_column c : c ∈ gff3_columns -> c ∈ columns annot.
Proof. apply Hcolumns. Qed.

Ltac gff3_column := apply has_gff3_column; in_columns.

(** X2.  Line 254 after a successful validation: the lookup of the
    principal isoform does not raise.  It returns the [transcript_id] of
    the first row of the annotation that is tagged [appris_principal]
    and holds the identifier in the lookup column; it raises
    [IndexError] exactly when there is no such row. *)
Theorem primary_isoform_after_validation (id_column : string) :
  id_column ∈ real_lookup_columns ->
  (snd (validate_identifier annot id_column identifier) = Ok true ->
   exists r0,
     head (principal_rows_for annot id_column identifier) = Some r0 /\
     primary_isoform principals id_column identifier =
     Ok (cell r0 "transcript_id")) /\
  (primary_isoform principals id_column identifier = Raise IndexError <->
   principal_rows_for annot id_column identifier = []).
Proof.
  intros Hcol.
  assert (Hhead := primary_isoform_head annot
            ltac:(gff3_column) ltac:(gff3_column)
            ltac:(gff3_column) ltac:(gff3_column)
            ltac:(gff3_column)
            principals id_column identifier Hprincipals Hcol).
  assert (Hin : id_column ∈ columns annot).
  { apply has_gff3_column. unfold real_lookup_columns in Hcol.
    rewrite !elem_of_cons, elem_of_nil in Hcol.
    destruct Hcol as [->|[->|[->|[]]]]; in_columns. }
  split.
  - intros Hv.
    destruct (validate_identifier_true annot id_column identifier Hin
                ltac:(gff3_column)
                ltac:(gff3_column)
                ltac:(gff3_column)
                ltac:(gff3_column) Hv) as (_ & r & Hr).
    apply principal_start_codon_is_principal_row in Hr.
    rewrite Hhead.
    destruct (principal_rows_for annot id_column identifier) as [|r0 l].
    + apply elem_of_nil in Hr. destruct Hr.
    + exists r0. split; reflexivity.
  - rewrite Hhead.
    destruct (principal_rows_for annot id_column identifier) as [|r0 l];
      cbn [head]; split; intros H; try reflexivity; discriminate H.
Qed.

(** X3.  A turn for an identifier classified as Ensembl transcript,
    Ensembl gene or gene symbol, after a successful validation: the
    Region is computed from the rows of one transcript, the one named
    by the first row that is tagged [appris_principal] and holds the
    identifier.  If [do_gff3_stuff] raises, the exception leaves the turn
    after the line that announces the kind.  If it returns,
    [bedtools_cmd] is called with that Region and the output file
    [<identifier>.fa]: when the call returns, an empty line is printed
    and the turn ends normally; when it raises, the exception leaves the
    turn. *)
Theorem validated_turn (k : Z) (id_column : string) :
  decode_id identifier = ret (Some k) ->
  k = ENST \/ k = ENSG \/ k = SYMBOL ->
  dict_getitem id_gff3_names (Some k) = Ok id_column ->
  snd (validate_identifier annot id_column identifier) = Ok true ->
  exists r0 desc,
    head (principal_rows_for annot id_column identifier) = Some r0 /\
    dict_getitem id_descriptions (Some k) = Ok desc /\
    main_body tool annot principals fasta up down identifier =
    match do_gff3_stuff
            (mkDataFrame (columns annot)
               (filter (fun r => py_eq (cell r "transcript_id")
                                   (cell r0 "transcript_id") = true)
                  (rows annot)))
            id_column identifier up down with
    | Ok region =>
        match tool region identifier fasta (identifier +:+ ".fa") with
        | None =>
            ([Stdout ("[ok] " +:+ identifier +:+ " => " +:+ desc);
              RunBedtools region identifier fasta (identifier +:+ ".fa");
              Stdout EmptyString],
             Ok tt)
        | Some e =>
            ([Stdout ("[ok] " +:+ identifier +:+ " => " +:+ desc);
              RunBedtools region identifier fasta (identifier +:+ ".fa")],
             Raise e)
        end
    | Raise e => ([Stdout ("[ok] " +:+ identifier +:+ " => " +:+ desc)], Raise e)
    end.
Proof.
  intros Hd Hk Hcol Hv.
  destruct (real_kinds k Hk) as (col & desc & Hcol' & Hdesc & Ht & Hreal).
  rewrite Hcol in Hcol'. injection Hcol' as <-.
  assert (Hin : id_column ∈ columns annot).
  { apply has_gff3_column. unfold real_lookup_columns in Hreal.
    rewrite !elem_of_cons, elem_of_nil in Hreal.
    destruct Hreal as [->|[->|[->|[]]]]; in_columns. }
  destruct (validate_identifier_true annot id_column identifier Hin
              ltac:(gff3_column) ltac:(gff3_column) ltac:(gff3_column)
              ltac:(gff3_column) Hv) as (Hv' & r & Hr).
  apply principal_start_codon_is_principal_row in Hr.
  assert (Hhead := primary_isoform_head annot
            ltac:(gff3_column) ltac:(gff3_column) ltac:(gff3_column)
            ltac:(gff3_column) ltac:(gff3_column)
            principals id_column identifier Hprincipals Hreal).
  destruct (principal_rows_for annot id_column identifier) as [|r0 l] eqn:E;
    [apply elem_of_nil in Hr; destruct Hr|].
  cbn [head] in Hhead.
  exists r0, desc. split; [reflexivity|]. split; [exact Hdesc|].
  rewrite (main_body_valid tool annot principals fasta up down identifier k id_column
             desc [] (cell r0 "transcript_id") Hd Hcol Hdesc Ht Hv' Hhead
             ltac:(gff3_column)).
  unfold mask, series_eq. rewrite <- list_fmap_compose.
  rewrite (select_fmap (fun r => py_eq (cell r "transcript_id")
                                   (cell r0 "transcript_id"))).
  reflexivity.
Qed.


End ValidatedTurn.

(** The lookup for TP53 in the sample annotation. *)
Lemma primary_isoform_after_validation_witness :
  exists principals r0,
    principals_frame tp53_annot = Ok principals /\
    head (principal_rows_for tp53_annot "gene_name" "TP53") = Some r0 /\
    primary_isoform principals "gene_name" "TP53" = Ok (cell r0 "transcript_id").
Proof.
  destruct (principals_frame tp53_annot) as [principals|] eqn:E;
    [|vm_compute in E; discriminate E].
  destruct (proj1 (primary_isoform_after_validation tp53_annot principals "TP53"
                     ltac:(intros c Hc; exact Hc) E "gene_name" ltac:(in_columns))
              ltac:(vm_compute; reflexivity)) as (r0 & H1 & H2).
  exists principals, r0. auto.
Defined.

(** TP53 by its gene symbol. *)
Lemma validated_turn_witness :
  exists principals r0 desc,
    principals_frame tp53_annot = Ok principals /\
    head (principal_rows_for tp53_annot "gene_name" "TP53") = Some r0 /\
    dict_getitem id_descriptions (Some SYMBOL) = Ok desc /\
    main_body bedtools_ok tp53_annot principals "hg38.fa" 1000 500 "TP53" =
    match do_gff3_stuff
            (mkDataFrame (columns tp53_annot)
               (filter (fun r => py_eq (cell r "transcript_id")
                                   (cell r0 "transcript_id") = true)
                  (rows tp53_annot)))
            "gene_name" "TP53" 1000 500 with
    | Ok region =>
        ([Stdout ("[ok] " +:+ "TP53" +:+ " => " +:+ desc);
          RunBedtools region "TP53" "hg38.fa" ("TP53" +:+ ".fa");
          Stdout EmptyString],
         Ok tt)
    | Raise e => ([Stdout ("[ok] " +:+ "TP53" +:+ " => " +:+ desc)], Raise e)
    end.
Proof.
  destruct (principals_frame tp53_annot) as [principals|] eqn:E;
    [|vm_compute in E; discriminate E].
  destruct (validated_turn bedtools_ok tp53_annot principals "hg38.fa" 1000 500 "TP53"
              ltac:(intros c Hc; exact Hc) E SYMBOL "gene_name"
              ltac:(vm_compute; reflexivity) ltac:(right; right; reflexivity)
              ltac:(vm_compute; reflexivity) ltac:(vm_compute; reflexivity))
    as (r0 & desc & H1 & H2 & H3).
  exists principals, r0, desc. auto.
Defined.


(* ===================================================================== *)
(** * Skipped identifiers and the shape of the output                     *)
(* ===================================================================== *)

Section Skips.

Variable tool : extractor.
Variables annot principals : DataFrame.
Variable fasta : string.
Variables up down : Z.

(** The tables cover every kind [decode_id] can return. *)
Lemma tables_cover k col :
  dict_getitem id_gff3_names (Some k) = Ok col ->
  exists desc,
    dict_getitem id_descriptions (Some k) = Ok desc /\ id_truthy (Some k) = true.
Proof.
  unfold dict_getitem. intros Hcol.
  destruct (id_gff3_names !! k) as [c|] eqn:E; [|discriminate].
  unfold id_gff3_names in E.
  repeat (rewrite lookup_insert in E;
          match type of E with
          | context [decide (?a = k)] =>
              destruct (decide (a = k)) as [<-|?];
              [eexists; split; vm_compute; reflexivity|]
          end).
  rewrite lookup_empty in E. discriminate.
Qed.

(** X5.  A failed validation costs the identifier only: the turn prints
    the line that announces the kind, the warning of
    [validate_identifier] and an empty line, calls no extractor and ends
    normally, and the loop goes on with the identifiers that follow. *)
Theorem failed_validation_is_skipped
    (identifier : string) (k : Z) (id_column : string) (w : list event)
    (rest : list string) :
  decode_id identifier = ret (Some k) ->
  dict_getitem id_gff3_names (Some k) = Ok id_column ->
  validate_identifier annot id_column identifier = (w, Ok false) ->
  exists desc,
    dict_getitem id_descriptions (Some k) = Ok desc /\
    main_body tool annot principals fasta up down identifier =
      (Stdout ("[ok] " +:+ identifier +:+ " => " +:+ desc) :: w ++
       [Stdout EmptyString], Ok tt) /\
    for_each (main_body tool annot principals fasta up down) (identifier :: rest) =
      (let '(out, res) := for_each (main_body tool annot principals fasta up down) rest in
       ((Stdout ("[ok] " +:+ identifier +:+ " => " +:+ desc) :: w ++
         [Stdout EmptyString]) ++ out, res)).
Proof.
  intros Hd Hcol Hv.
  destruct (tables_cover k id_column Hcol) as (desc & Hdesc & Ht).
  exists desc. split; [exact Hdesc|].
  assert (Hbody : main_body tool annot principals fasta up down identifier =
                  (Stdout ("[ok] " +:+ identifier +:+ " => " +:+ desc) :: w ++
                   [Stdout EmptyString], Ok tt)).
  { unfold main_body. rewrite Hd. cbn [ret bind app]. rewrite Hcol.
    cbn [liftR bind app]. rewrite Ht, Hdesc. cbn [liftR bind app info print].
    rewrite Hv. cbn. reflexivity. }
  split; [exact Hbody|].
  cbn [for_each]. rewrite Hbody. cbn [bind].
  destruct (for_each (main_body tool annot principals fasta up down) rest).
  reflexivity.
Qed.

End Skips.

(** An unknown gene symbol before TP53: TP53 is still extracted. *)
Lemma failed_validation_is_skipped_witness :
  for_each (main_body bedtools_ok tp53_annot tp53_annot "hg38.fa" 1000 500) ["FAKEGENE"; "TP53"] =
  ([Stdout "[ok] FAKEGENE => Official gene symbol";
    Stdout "[* ] no gene_name known by this identifier: FAKEGENE";
    Stdout EmptyString;
    Stdout "[ok] TP53 => Official gene symbol";
    RunBedtools
      (mkRegion (PStr "chr17") (PInt 500) (PInt 2000) (PStr "TP53") (PStr ".")
         (PStr "-"))
      "TP53" "hg38.fa" "TP53.fa";
    Stdout EmptyString],
   Ok tt).
Proof.
  destruct (failed_validation_is_skipped bedtools_ok tp53_annot tp53_annot "hg38.fa" 1000 500
              "FAKEGENE" SYMBOL "gene_name"
              [Stdout "[* ] no gene_name known by this identifier: FAKEGENE"]
              ["TP53"]
              ltac:(vm_compute; reflexivity) ltac:(vm_compute; reflexivity)
              ltac:(vm_compute; reflexivity))
    as (desc & Hdesc & _ & Hloop).
  rewrite Hloop. vm_compute in Hdesc. injection Hdesc as <-.
  vm_compute. reflexivity.
Defined.

(* ===================================================================== *)
(** * Further properties of decode_id                                     *)
(* ===================================================================== *)

Section ClassificationMore.

(** X6.  [decode_id] never raises, and both tables have an entry for
    every kind it returns: the lookups of lines 242 and 244 fail only
    for [None]. *)
Theorem classified_identifier_has_column (identifier : string) :
  (exists k col desc,
     decode_id identifier = ret (Some k) /\
     dict_getitem id_gff3_names (Some k) = Ok col /\
     dict_getitem id_descriptions (Some k) = Ok desc /\
     id_truthy (Some k) = true /\
     col ∈ ["transcript_id"; "gene_id"; "TBD"; "gene_name"]) \/
  (decode_id identifier =
     ([Stdout ("[* ] I was unable to understand your gene id: " +:+ identifier)],
      Ok None) /\
   dict_getitem id_gff3_names None = Raise (KeyError "None")).
Proof.
  unfold decode_id.
  destruct (re_search pat_ENST identifier);
    [left; exists ENST, "transcript_id", "ensembl! transcript";
     repeat split; try (vm_compute; reflexivity); in_columns|].
  destruct (re_search pat_ENSG identifier);
    [left; exists ENSG, "gene_id", "ensembl! gene";
     repeat split; try (vm_compute; reflexivity); in_columns|].
  destruct (re_search pat_UCSC identifier);
    [left; exists UCSC, "TBD", "UCSC transcript id";
     repeat split; try (vm_compute; reflexivity); in_columns|].
  destruct (re_search pat_REFSEQ identifier);
    [left; exists REFSEQ, "TBD", "NCBI Refseq id";
     repeat split; try (vm_compute; reflexivity); in_columns|].
  destruct (re_search pat_SYMBOL identifier);
    [left; exists SYMBOL, "gene_name", "Official gene symbol";
     repeat split; try (vm_compute; reflexivity); in_columns|].
  right. split; reflexivity.
Qed.

Lemma list_ascii_of_string_app s t :
  list_ascii_of_string (s +:+ t) = list_ascii_of_string s ++ list_ascii_of_string t.
Proof. induction s as [|c s IH]; simpl; [reflexivity | rewrite IH; reflexivity]. Qed.

Lemma Matches_anchored_suffix p s t :
  anchored p = true -> Matches p s -> Matches p (s +:+ t).
Proof.
  unfold Matches. intros ->. intros (u & v & E & H).
  exists u, (v ++ list_ascii_of_string t).
  rewrite list_ascii_of_string_app, E, <- app_assoc. auto.
Qed.

Lemma decode_id_kind identifier k :
  decode_id identifier = ret (Some k) ->
  (k = ENST /\ Matches pat_ENST identifier) \/
  (k = ENSG /\ Matches pat_ENSG identifier) \/
  (k = UCSC /\ Matches pat_UCSC identifier) \/
  (k = REFSEQ /\ Matches pat_REFSEQ identifier) \/
  (k = SYMBOL /\ Matches pat_SYMBOL identifier).
Proof.
  rewrite <- !re_search_spec. unfold decode_id.
  destruct (re_search pat_ENST identifier); [intros [= <-]; auto|].
  destruct (re_search pat_ENSG identifier); [intros [= <-]; auto|].
  destruct (re_search pat_UCSC identifier); [intros [= <-]; auto 6|].
  destruct (re_search pat_REFSEQ identifier); [intros [= <-]; auto 8|].
  destruct (re_search pat_SYMBOL identifier); [intros [= <-]; auto 10|].
  discriminate.
Qed.

(** X7.  The four anchored kinds are decided by the beginning of the
    identifier: whatever is appended to an Ensembl, UCSC or RefSeq
    identifier (a version suffix, for instance), the kind stays. *)
Theorem anchored_kind_stable (identifier suffix : string) (k : Z) :
  decode_id identifier = ret (Some k) ->
  k = ENST \/ k = ENSG \/ k = UCSC \/ k = REFSEQ ->
  decode_id (identifier +:+ suffix) = ret (Some k).
Proof.
  intros Hd Hk. apply decode_id_kind in Hd.
  destruct Hd as [[-> H]|[[-> H]|[[-> H]|[[-> H]|[-> H]]]]].
  - apply decode_id_ENST, Matches_anchored_suffix; [reflexivity | exact H].
  - apply decode_id_ENSG, Matches_anchored_suffix; [reflexivity | exact H].
  - apply decode_id_UCSC, Matches_anchored_suffix; [reflexivity | exact H].
  - apply decode_id_REFSEQ, Matches_anchored_suffix; [reflexivity | exact H].
  - exfalso. destruct Hk as [Hk|[Hk|[Hk|Hk]]]; discriminate Hk.
Qed.

(** A versioned Ensembl transcript identifier. *)
Lemma anchored_kind_stable_witness :
  decode_id ("ENST00000380152" +:+ ".7") = ret (Some ENST).
Proof.
  apply anchored_kind_stable.
  - vm_compute. reflexivity.
  - left. reflexivity.
Defined.

Lemma is_digit_upper_or_digit c : is_digit c = true -> is_upper_or_digit c = true.
Proof.
  unfold is_digit, is_upper_or_digit, in_class. cbn [existsb fst snd].
  rewrite !orb_false_r. intros ->. apply orb_true_r.
Qed.

Lemma length_list_ascii_of_string s :
  length (list_ascii_of_string s) = String.length s.
Proof. induction s as [|c s IH]; simpl; [reflexivity | rewrite IH; reflexivity]. Qed.

(** X8.  An identifier of fewer than two characters, or one without any
    uppercase letter or digit, is not understood: [decode_id] prints the
    warning and returns [None]. *)
Theorem unclassifiable_identifier (identifier : string) :
  (String.length identifier < 2)%nat \/
  Forall (fun c => is_upper_or_digit c = false) (list_ascii_of_string identifier) ->
  decode_id identifier =
  ([Stdout ("[* ] I was unable to understand your gene id: " +:+ identifier)],
   Ok None).
Proof.
  intros H.
  assert (N1 : ~ Matches pat_ENST identifier).
  { rewrite Matches_ENST. intros (d & rest & E & _ & _). destruct H as [H|H].
    - rewrite <- length_list_ascii_of_string, E in H. simpl in H. lia.
    - rewrite E in H. apply Forall_cons in H as [H _]. vm_compute in H.
      discriminate H. }
  assert (N2 : ~ Matches pat_ENSG identifier).
  { rewrite Matches_ENSG. intros (d & rest & E & _ & _). destruct H as [H|H].
    - rewrite <- length_list_ascii_of_string, E in H. simpl in H. lia.
    - rewrite E in H. apply Forall_cons in H as [H _]. vm_compute in H.
      discriminate H. }
  assert (N3 : ~ Matches pat_UCSC identifier).
  { rewrite Matches_UCSC. intros (d & l & rest & E & Hd & Hdig & _). destruct H as [H|H].
    - rewrite <- length_list_ascii_of_string, E in H. simpl in H. lia.
    - rewrite E in H. destruct d as [|x d]; [discriminate|].
      apply Forall_cons in Hdig as [Hx _]. apply is_digit_upper_or_digit in Hx.
      simpl in H. apply Forall_cons in H as [_ H]. apply Forall_cons in H as [_ H].
      apply Forall_cons in H as [H _]. congruence. }
  assert (N4 : ~ Matches pat_REFSEQ identifier).
  { rewrite Matches_REFSEQ. intros (a & b & rest & E & Ha & _). destruct H as [H|H].
    - rewrite <- length_list_ascii_of_string, E in H. simpl in H. lia.
    - rewrite E in H. apply Forall_cons in H as [H _].
      destruct Ha as [-> | ->]; vm_compute in H; discriminate H. }
  assert (N5 : ~ Matches pat_SYMBOL identifier).
  { rewrite Matches_SYMBOL. intros (t & a & b & rest & E & Ha & _). destruct H as [H|H].
    - rewrite <- length_list_ascii_of_string, E in H.
      rewrite length_app in H. simpl in H. lia.
    - rewrite E in H. apply Forall_app in H as [_ H].
      apply Forall_cons in H as [H _]. congruence. }
  apply re_search_false in N1, N2, N3, N4, N5.
  unfold decode_id. rewrite N1, N2, N3, N4, N5. reflexivity.
Qed.

(** A gene symbol typed in lowercase. *)
Lemma unclassifiable_identifier_witness :
  decode_id "brca" =
  ([Stdout "[* ] I was unable to understand your gene id: brca"], Ok None).
Proof.
  apply (unclassifiable_identifier "brca"). right.
  repeat constructor.
Defined.

End ClassificationMore.

(* ===================================================================== *)
(** * Further properties of do_gff3_stuff                                 *)
(* ===================================================================== *)

Section PromoterMore.

Lemma region_of_row_not_IndexError identifier up down r :
  region_of_row identifier up down r <> Raise IndexError.
Proof.
  unfold region_of_row.
  destruct (py_eq (cell r "strand") (PStr "+"));
    [|destruct (py_eq (cell r "strand") (PStr "-")); [|discriminate]];
    destruct (cell r "start"); cbn; discriminate.
Qed.

(** X9.  On a frame that has the four columns it reads, [do_gff3_stuff]
    raises [IndexError] exactly when the frame has no [start_codon] row
    (an empty frame included). *)
Theorem do_gff3_stuff_IndexError
    (principal : DataFrame) (id_column identifier : string) (up down : Z) :
  "feature" ∈ columns principal -> "start" ∈ columns principal ->
  "seqname" ∈ columns principal -> "strand" ∈ columns principal ->
  do_gff3_stuff principal id_column identifier up down = Raise IndexError <->
  forall r, r ∈ rows principal -> cell r "feature" <> PStr "start_codon".
Proof.
  intros Hf Hs Hq Ht. rewrite do_gff3_stuff_unfold.
  rewrite !decide_True by assumption. unfold first_start_codon.
  destruct (filter (fun r => cell r "feature" = PStr "start_codon")
              (rows principal)) as [|r0 l] eqn:E; cbn [head].
  - split; [|reflexivity]. intros _ r Hr Hfeat.
    apply (not_elem_of_nil r). rewrite <- E. apply list_elem_of_filter. auto.
  - rewrite !decide_True by assumption. split.
    + intros H. destruct (region_of_row_not_IndexError _ _ _ _ H).
    + intros H. exfalso.
      assert (Hin : r0 ∈ filter (fun r => cell r "feature" = PStr "start_codon")
                          (rows principal)) by (rewrite E; left).
      apply list_elem_of_filter in Hin as [Hfeat Hin]. apply (H r0 Hin Hfeat).
Qed.

(** A transcript row alone. *)
Lemma do_gff3_stuff_IndexError_witness :
  do_gff3_stuff no_start_codon_annot "gene_name" "TP53" 1000 500 = Raise IndexError.
Proof.
  apply do_gff3_stuff_IndexError; try in_columns.
  intros r Hr. unfold no_start_codon_annot in Hr; cbn [rows] in Hr.
  apply list_elem_of_singleton in Hr as ->. vm_compute. discriminate.
Defined.

Lemma head_filter_first {A : Type} (P : A -> Prop) `{!forall x, Decision (P x)}
    (before after : list A) (x : A) :
  P x -> (forall y, y ∈ before -> ~ P y) ->
  head (filter P (before ++ x :: after)) = Some x.
Proof.
  intros Hx. induction before as [|y before IH]; intros Hb; cbn [app].
  - rewrite filter_cons_True by exact Hx. reflexivity.
  - rewrite filter_cons_False by (apply Hb; left).
    apply IH. intros z Hz. apply Hb. right. exact Hz.
Qed.

(** X10.  [do_gff3_stuff] reads one row: the result for a frame is the
    result for its first [start_codon] row alone, whatever rows come
    before or after it. *)
Theorem do_gff3_stuff_first_row_only
    (cs : list string) (before after : list (gmap string pyval))
    (r : gmap string pyval) (id_column identifier : string) (up down : Z) :
  cell r "feature" = PStr "start_codon" ->
  (forall x, x ∈ before -> cell x "feature" <> PStr "start_codon") ->
  do_gff3_stuff (mkDataFrame cs (before ++ r :: after)) id_column identifier up down =
  do_gff3_stuff (mkDataFrame cs [r]) id_column identifier up down.
Proof.
  intros Hr Hb. rewrite !do_gff3_stuff_unfold. cbn [columns].
  unfold first_start_codon; cbn [rows].
  rewrite (head_filter_first _ before after r Hr Hb).
  rewrite (head_filter_first _ [] [] r Hr) by (intros y Hy; inversion Hy).
  reflexivity.
Qed.

(** The start codon of the sample, after the transcript row. *)
Lemma do_gff3_stuff_first_row_only_witness :
  do_gff3_stuff tp53_annot "gene_name" "TP53" 1000 500 =
  do_gff3_stuff
    (mkDataFrame gff3_columns
       [gff3_row "chr17" 1000 1002 "-" "start_codon"
          "ENSG00000141510" "TP53" "ENST00000269305" (Some "1")])
    "gene_name" "TP53" 1000 500.
Proof.
  refine (do_gff3_stuff_first_row_only gff3_columns
            [gff3_row "chr17" 900 2500 "-" "transcript"
               "ENSG00000141510" "TP53" "ENST00000269305" None]
            [] _ "gene_name" "TP53" 1000 500 _ _).
  - vm_compute. reflexivity.
  - intros x Hx. apply list_elem_of_singleton in Hx as ->. vm_compute. discriminate.
Defined.

(** X11.  The arithmetic needs a number: when the [start] cell of the
    first [start_codon] row is a string (not cast to an integer) or
    [None], [do_gff3_stuff] raises [TypeError] on either strand. *)
Theorem do_gff3_stuff_TypeError
    (principal : DataFrame) (id_column identifier : string) (up down : Z)
    (r : gmap string pyval) :
  "feature" ∈ columns principal -> "start" ∈ columns principal ->
  "seqname" ∈ columns principal -> "strand" ∈ columns principal ->
  first_start_codon principal = Some r ->
  cell r "strand" = PStr "+" \/ cell r "strand" = PStr "-" ->
  cell r "start" = PNone \/ (exists s, cell r "start" = PStr s) ->
  do_gff3_stuff principal id_column identifier up down = Raise TypeError.
Proof.
  intros Hf Hs Hq Ht Hr Hstrand Hstart.
  rewrite (do_gff3_stuff_first principal id_column identifier up down Hf Hs Hq Ht r Hr).
  unfold region_of_row.
  destruct Hstrand as [-> | ->]; cbn [py_eq String.eqb Ascii.eqb Bool.eqb];
    destruct Hstart as [-> | [s ->]]; reflexivity.
Qed.

(** The start coordinate as text. *)
Lemma do_gff3_stuff_TypeError_witness :
  do_gff3_stuff uncast_annot "gene_name" "TP53" 1000 500 = Raise TypeError.
Proof.
  refine (do_gff3_stuff_TypeError uncast_annot "gene_name" "TP53" 1000 500
            (<["start" := PStr "1000"]>
               (gff3_row "chr17" 1000 1002 "-" "start_codon"
                  "ENSG00000141510" "TP53" "ENST00000269305" (Some "1")))
            _ _ _ _ _ _ _); try in_columns.
  right. exists "1000". vm_compute. reflexivity.
Defined.

(** X12.  The two strands mirror each other: for the same start
    coordinate, the interval on the minus strand with offsets
    [(up, down)] is the interval on the plus strand with offsets
    [(down, up)]. *)
Theorem strands_mirror
    (plus minus : DataFrame) (id_column identifier : string) (up down : Z)
    (rp rm : gmap string pyval) (CDS : Z) :
  "feature" ∈ columns plus -> "start" ∈ columns plus ->
  "seqname" ∈ columns plus -> "strand" ∈ columns plus ->
  "feature" ∈ columns minus -> "start" ∈ columns minus ->
  "seqname" ∈ columns minus -> "strand" ∈ columns minus ->
  first_start_codon plus = Some rp -> first_start_codon minus = Some rm ->
  cell rp "start" = PInt CDS -> cell rm "start" = PInt CDS ->
  cell rp "strand" = PStr "+" -> cell rm "strand" = PStr "-" ->
  exists region_plus region_minus,
    do_gff3_stuff plus id_column identifier down up = Ok region_plus /\
    do_gff3_stuff minus id_column identifier up down = Ok region_minus /\
    start region_plus = start region_minus /\
    end_ region_plus = end_ region_minus.
Proof.
  intros Hf Hs Hq Ht Hf' Hs' Hq' Ht' Hrp Hrm Hcp Hcm Hsp Hsm.
  eexists _, _. split; [|split].
  - apply (do_gff3_stuff_plus plus id_column identifier down up Hf Hs Hq Ht
             rp CDS Hrp Hcp Hsp).
  - apply (do_gff3_stuff_minus minus id_column identifier up down Hf' Hs' Hq' Ht'
             rm CDS Hrm Hcm Hsm).
  - split; reflexivity.
Qed.

(** The two samples, both with a start codon at 1000. *)
Lemma strands_mirror_witness :
  exists region_plus region_minus,
    do_gff3_stuff brca2_annot "gene_name" "X" 500 1000 = Ok region_plus /\
    do_gff3_stuff tp53_annot "gene_name" "X" 1000 500 = Ok region_minus /\
    start region_plus = start region_minus /\
    end_ region_plus = end_ region_minus.
Proof.
  refine (strands_mirror brca2_annot tp53_annot "gene_name" "X" 1000 500
            (gff3_row "chr13" 1000 1002 "+" "start_codon"
               "ENSG00000139618" "BRCA2" "ENST00000380152" (Some "1"))
            (gff3_row "chr17" 1000 1002 "-" "start_codon"
               "ENSG00000141510" "TP53" "ENST00000269305" (Some "1"))
            1000 _ _ _ _ _ _ _ _ _ _ _ _ _ _);
    try in_columns; vm_compute; reflexivity.
Defined.

End PromoterMore.

(* ===================================================================== *)
(** * main as a whole                                                     *)
(* ===================================================================== *)

Section MainMore.

(** X13.  [main] builds the frame of principal rows before it looks at
    any identifier: on an annotation that lacks [appris_principal],
    [gene_name], [gene_id], [transcript_name] or [transcript_id] it
    raises [KeyError] for a missing column without printing anything,
    whatever the identifiers are. *)
Theorem main_needs_principal_columns
    (tool : extractor) (annot : DataFrame) (fasta : string) (up down : Z)
    (identifiers : list string)
    (c : string) :
  c ∈ ["gene_name"; "gene_id"; "transcript_name"; "transcript_id";
       "appris_principal"] ->
  c ∉ columns annot ->
  exists c', (c' ∉ columns annot) /\
             main tool annot fasta up down identifiers = ([], Raise (KeyError c')).
Proof.
  intros Hc Hmiss. unfold main, dropna, getitems, check_labels.
  destruct (decide ("appris_principal" ∈ columns annot)) as [Ha|Ha];
    [|exists "appris_principal"; split; [exact Ha | reflexivity]].
  cbn [liftR bind app columns rbind].
  destruct (decide ("gene_name" ∈ columns annot)) as [H1|H1];
    [|exists "gene_name"; split; [exact H1 | reflexivity]].
  destruct (decide ("gene_id" ∈ columns annot)) as [H2|H2];
    [|exists "gene_id"; split; [exact H2 | reflexivity]].
  destruct (decide ("transcript_name" ∈ columns annot)) as [H3|H3];
    [|exists "transcript_name"; split; [exact H3 | reflexivity]].
  destruct (decide ("transcript_id" ∈ columns annot)) as [H4|H4];
    [|exists "transcript_id"; split; [exact H4 | reflexivity]].
  exfalso. apply Hmiss.
  rewrite !elem_of_cons, elem_of_nil in Hc.
  destruct Hc as [->|[->|[->|[->|[->|[]]]]]]; assumption.
Qed.

(** An annotation without [transcript_name]. *)
Lemma main_needs_principal_columns_witness :
  exists c', (c' ∉ ["seqname"; "start"; "end"; "strand"; "feature"; "gene_id";
                    "gene_name"; "transcript_id"; "appris_principal"]) /\
             main bedtools_ok (mkDataFrame
                     ["seqname"; "start"; "end"; "strand"; "feature"; "gene_id";
                      "gene_name"; "transcript_id"; "appris_principal"]
                     (rows tp53_annot))
               "hg38.fa" 1000 500 ["TP53"] = ([], Raise (KeyError c')).
Proof.
  refine (main_needs_principal_columns bedtools_ok
            (mkDataFrame
               ["seqname"; "start"; "end"; "strand"; "feature"; "gene_id";
                "gene_name"; "transcript_id"; "appris_principal"]
               (rows tp53_annot))
            "hg38.fa" 1000 500 ["TP53"] "transcript_name" _ _).
  - in_columns.
  - intros Hin. apply (bool_decide_pack _) in Hin. vm_compute in Hin. exact Hin.
Defined.

Lemma blank_lines_app o1 o2 : blank_lines (o1 ++ o2) = (blank_lines o1 + blank_lines o2)%nat.
Proof. unfold blank_lines. rewrite filter_app, length_app. reflexivity. Qed.

Lemma extractor_calls_app o1 o2 :
  extractor_calls (o1 ++ o2) = (extractor_calls o1 + extractor_calls o2)%nat.
Proof. unfold extractor_calls. rewrite filter_app, length_app. reflexivity. Qed.

Lemma decode_id_output identifier :
  blank_lines (fst (decode_id identifier)) = 0%nat /\
  extractor_calls (fst (decode_id identifier)) = 0%nat.
Proof.
  unfold decode_id.
  repeat match goal with
         | |- context [re_search ?p identifier] =>
             destruct (re_search p identifier); [split; reflexivity|]
         end.
  split; reflexivity.
Qed.

Lemma validate_identifier_quiet annot id_column identifier :
  blank_lines (fst (validate_identifier annot id_column identifier)) = 0%nat /\
  extractor_calls (fst (validate_identifier annot id_column identifier)) = 0%nat.
Proof.
  destruct (validate_identifier_output annot id_column identifier) as [-> | [msg ->]];
    split; reflexivity.
Qed.

(** A turn that ends normally prints exactly one empty line and calls
    the extractor at most once. *)
Lemma main_body_output tool annot principals fasta up down identifier out :
  main_body tool annot principals fasta up down identifier = (out, Ok tt) ->
  blank_lines out = 1%nat /\ (extractor_calls out <= 1)%nat.
Proof.
  unfold main_body. intros H.
  apply bind_Ok_inv in H as (o1 & id_type & ? & Hd & H & ->).
  apply bind_Ok_inv in H as (o2 & id_column & ? & Hc & H & ->).
  apply bind_Ok_inv in H as (o3 & _u & ? & Hi & H & ->).
  apply bind_Ok_inv in H as (o4 & valid & ? & Hv & H & ->).
  destruct (decode_id_output identifier) as [Hb1 He1]. rewrite Hd in Hb1, He1.
  destruct (validate_identifier_quiet annot id_column identifier) as [Hb4 He4].
  rewrite Hv in Hb4, He4. cbn [fst] in *.
  apply liftR_Ok_inv in Hc as [_ ->].
  assert (Hb3 : blank_lines o3 = 0%nat /\ extractor_calls o3 = 0%nat).
  { destruct (id_truthy id_type).
    - apply bind_Ok_inv in Hi as (? & d & ? & Hl & Hp & ->).
      apply liftR_Ok_inv in Hl as [_ ->]. unfold info, print in Hp.
      injection Hp as <-. split; reflexivity.
    - injection Hi as <-. split; reflexivity. }
  destruct Hb3 as [Hb3 He3].
  destruct valid; cbn [negb] in H.
  - apply bind_Ok_inv in H as (o5 & pcol & ? & H5 & H & ->).
    apply bind_Ok_inv in H as (o6 & tids & ? & H6 & H & ->).
    apply bind_Ok_inv in H as (o7 & primary & ? & H7 & H & ->).
    apply bind_Ok_inv in H as (o8 & tcol & ? & H8 & H & ->).
    apply bind_Ok_inv in H as (o9 & region & ? & Hr & H & ->).
    apply liftR_Ok_inv in H5 as [_ ->]. apply liftR_Ok_inv in H6 as [_ ->].
    apply liftR_Ok_inv in H7 as [_ ->]. apply liftR_Ok_inv in H8 as [_ ->].
    apply liftR_Ok_inv in Hr as [Hr ->].
    apply do_gff3_stuff_truthy in Hr as [_ Hb]. rewrite Hb in H.
    cbn [negb] in H. unfold bedtools_cmd, print in H.
    destruct (tool region identifier fasta (identifier +:+ ".fa")); cbn in H;
      [discriminate|]. injection H as <-.
    rewrite !blank_lines_app, !extractor_calls_app, Hb1, He1, Hb3, He3, Hb4, He4.
    split; [reflexivity | apply Nat.leb_le; reflexivity].
  - unfold print in H. injection H as <-.
    rewrite !blank_lines_app, !extractor_calls_app, Hb1, He1, Hb3, He3, Hb4, He4.
    split; [reflexivity | apply Nat.leb_le; reflexivity].
Qed.

Lemma for_each_output tool annot principals fasta up down identifiers out :
  for_each (main_body tool annot principals fasta up down) identifiers = (out, Ok tt) ->
  blank_lines out = length identifiers /\
  (extractor_calls out <= length identifiers)%nat.
Proof.
  revert out. induction identifiers as [|x l IH]; intros out H.
  - injection H as <-. split; [reflexivity | apply Nat.leb_le; reflexivity].
  - cbn [for_each] in H.
    apply bind_Ok_inv in H as (o1 & [] & o2 & Hx & Hl & ->).
    apply main_body_output in Hx as [Hb He]. apply IH in Hl as [Hb' He'].
    rewrite blank_lines_app, extractor_calls_app, Hb, Hb'. cbn [length].
    split; [reflexivity | lia].
Qed.

(** X14.  When [main] returns normally it has printed exactly one empty
    line per identifier and has called the extractor at most once per
    identifier. *)
Theorem main_output_shape
    (tool : extractor) (annot : DataFrame) (fasta : string) (up down : Z)
    (identifiers : list string)
    (out : list event) :
  main tool annot fasta up down identifiers = (out, Ok tt) ->
  blank_lines out = length identifiers /\
  (extractor_calls out <= length identifiers)%nat.
Proof.
  unfold main. intros H.
  apply bind_Ok_inv in H as (o1 & nonnull & ? & H1 & H & ->).
  apply bind_Ok_inv in H as (o2 & five & ? & H2 & H & ->).
  apply bind_Ok_inv in H as (o3 & [] & o4 & H3 & H & ->).
  apply liftR_Ok_inv in H1 as [_ ->]. apply liftR_Ok_inv in H2 as [_ ->].
  unfold info, print in H3. injection H3 as <-.
  apply for_each_output in H as [Hb He].
  rewrite !blank_lines_app, !extractor_calls_app, Hb.
  split; [reflexivity | exact He].
Qed.

(** The batch of an unknown and a known gene symbol. *)
Lemma main_output_shape_witness :
  blank_lines (fst (main bedtools_ok tp53_annot "hg38.fa" 1000 500 ["FAKEGENE"; "TP53"])) = 2%nat /\
  (extractor_calls (fst (main bedtools_ok tp53_annot "hg38.fa" 1000 500 ["FAKEGENE"; "TP53"]))
   <= 2)%nat.
Proof.
  apply (main_output_shape bedtools_ok tp53_annot "hg38.fa" 1000 500
           ["FAKEGENE"; "TP53"]).
  vm_compute. reflexivity.
Defined.

End MainMore.

(* ===================================================================== *)
(** * The BED line of bedtools_cmd                                        *)
(* ===================================================================== *)

Section BedLine.

Lemma contains_char_app c s t :
  contains_char c (s +:+ t) = contains_char c s || contains_char c t.
Proof.
  induction s as [|d s IH]; simpl; [reflexivity|].
  rewrite IH. apply orb_assoc.
Qed.

Lemma split_on_app_sep sep s t :
  contains_char sep s = false ->
  split_on sep (s +:+ String sep t) = s :: split_on sep t.
Proof.
  induction s as [|d s IH]; simpl; intros H.
  - rewrite Ascii.eqb_refl. reflexivity.
  - apply orb_false_iff in H as [Hd Hs]. rewrite Hd, (IH Hs). reflexivity.
Qed.

Lemma split_on_no_sep sep s :
  contains_char sep s = false -> split_on sep s = [s].
Proof.
  induction s as [|d s IH]; simpl; intros H; [reflexivity|].
  apply orb_false_iff in H as [Hd Hs]. rewrite Hd, (IH Hs). reflexivity.
Qed.

(** Joining with a separator that no field contains, then splitting,
    gives the fields back. *)
Lemma split_on_concat sep fields :
  fields <> [] ->
  Forall (fun f => contains_char sep f = false) fields ->
  split_on sep (String.concat (String sep EmptyString) fields) = fields.
Proof.
  induction fields as [|f fields IH]; intros Hne Hall; [contradiction|].
  apply Forall_cons in Hall as [Hf Hall].
  destruct fields as [|g fields].
  - simpl. apply split_on_no_sep. exact Hf.
  - change (String.concat (String sep EmptyString) (f :: g :: fields))
      with (f +:+ String sep (String.concat (String sep EmptyString) (g :: fields))).
    rewrite (split_on_app_sep sep f _ Hf). f_equal. apply IH; [discriminate | exact Hall].
Qed.

Lemma decimal_no_tab d : contains_char tab (NilEmpty.string_of_uint d) = false.
Proof. induction d; simpl; try exact IHd; reflexivity. Qed.

Lemma decimal_or_zero_no_tab d : contains_char tab (NilZero.string_of_uint d) = false.
Proof. destruct d; [reflexivity | apply decimal_no_tab ..]. Qed.

(** [str] of anything but a string has no tab. *)
Lemma py_str_number_no_tab v :
  (forall s, v <> PStr s) -> contains_char tab (py_str v) = false.
Proof.
  destruct v as [| |z|s]; intros H; try reflexivity.
  - unfold py_str, NilZero.string_of_int.
    destruct (Z.to_int z) as [d|d]; [|cbn [contains_char Ascii.eqb]];
      apply decimal_or_zero_no_tab.
  - destruct (H s). reflexivity.
Qed.

Lemma py_sub_not_string v n x s : py_sub v n = Ok x -> x <> PStr s.
Proof. destruct v; simpl; intros [= <-]; discriminate. Qed.

Lemma py_add_not_string v n x s : py_add v n = Ok x -> x <> PStr s.
Proof. destruct v; simpl; intros [= <-]; discriminate. Qed.

(** X15.  The line written to the BED file for a Region computed by
    [do_gff3_stuff] is well formed: it ends with a newline, and cut at
    its tabs it has exactly the six columns chrom, start, end, name,
    score and strand, provided neither the identifier nor the
    chromosome name contains a tab. *)
Theorem bed_line_columns
    (principal : DataFrame) (id_column identifier : string) (up down : Z)
    (region : Region) :
  do_gff3_stuff principal id_column identifier up down = Ok region ->
  contains_char tab identifier = false ->
  contains_char tab (py_str (chrom region)) = false ->
  exists body,
    bed_line region = body +:+ String newline EmptyString /\
    split_on tab body = bed_fields region /\
    length (split_on tab body) = 6%nat.
Proof.
  intros Hok Hid Hchrom.
  apply do_gff3_stuff_Ok_inv in Hok
    as (r & _ & _ & Hname & Hscore & Hstrand & Hcase).
  assert (Hst : contains_char tab (py_str (strand region)) = false).
  { rewrite Hstrand. destruct Hcase as [(-> & _) | (-> & _)]; reflexivity. }
  assert (Hs : contains_char tab (py_str (start region)) = false).
  { apply py_str_number_no_tab. intros s.
    destruct Hcase as [(_ & H & _) | (_ & H & _)];
      apply (py_sub_not_string _ _ _ _ H). }
  assert (He : contains_char tab (py_str (end_ region)) = false).
  { apply py_str_number_no_tab. intros s.
    destruct Hcase as [(_ & _ & H) | (_ & _ & H)];
      apply (py_add_not_string _ _ _ _ H). }
  assert (Hn : contains_char tab (py_str (name region)) = false)
    by (rewrite Hname; exact Hid).
  assert (Hsc : contains_char tab (py_str (score region)) = false)
    by (rewrite Hscore; reflexivity).
  assert (Hbn : contains_char tab (bed_name region) = false).
  { unfold bed_name. rewrite !contains_char_app, Hn, Hchrom, Hs, He, Hst.
    reflexivity. }
  exists (String.concat (String tab EmptyString) (bed_fields region)).
  split; [reflexivity|].
  assert (Hsplit : split_on tab (String.concat (String tab EmptyString)
                                   (bed_fields region)) = bed_fields region).
  { apply split_on_concat; [discriminate|].
    unfold bed_fields. repeat (apply Forall_cons; split; [assumption|]).
    apply Forall_nil. exact I. }
  split; [exact Hsplit|]. rewrite Hsplit. reflexivity.
Qed.

(** The BED line of the sample Region. *)
Lemma bed_line_columns_witness :
  exists body,
    bed_line (mkRegion (PStr "chr17") (PInt 500) (PInt 2000) (PStr "TP53") (PStr ".")
                (PStr "-")) = body +:+ String newline EmptyString /\
    split_on tab body =
      ["chr17"; "500"; "2000"; "TP53;promoter;chr17:500-2000(-)"; "."; "-"] /\
    length (split_on tab body) = 6%nat.
Proof.
  refine (bed_line_columns tp53_annot "gene_name" "TP53" 1000 500
            (mkRegion (PStr "chr17") (PInt 500) (PInt 2000) (PStr "TP53") (PStr ".")
               (PStr "-")) _ _ _); vm_compute; reflexivity.
Defined.

End BedLine.

(* ===================================================================== *)
(** * Configuration and input files                                       *)
(* ===================================================================== *)

Section Startup.

Variable fs : filesystem.
Variable args : arguments.

Lemma override_same key arg (config : gmap string string) :
  override key arg config !! key = chosen arg (config !! key).
Proof.
  unfold override, chosen. destruct arg as [s|]; [|reflexivity].
  destruct (String.eqb s EmptyString); [reflexivity|].
  cbn [negb]. apply lookup_insert_eq.
Qed.

Lemma override_other key key' arg (config : gmap string string) :
  key <> key' -> override key arg config !! key' = config !! key'.
Proof.
  intros Hne. unfold override. destruct arg as [s|]; [|reflexivity].
  destruct (negb (String.eqb s EmptyString)); [|reflexivity].
  apply lookup_insert_ne. exact Hne.
Qed.

(** The start of [main] in terms of the two paths in effect. *)
Lemma main_setup_cases :
  main_setup fs args =
  match chosen (arg_fasta args) (load_config fs !! "fasta"),
        chosen (arg_gff3 args) (load_config fs !! "gff3") with
  | Some fasta, Some gff3 =>
      run fasta' <- validate_file fs fasta;
      run gff3' <- validate_file fs gff3;
      ([Stdout "[ok] loading gff3"],
       inl (<["gff3" := gff3']>
              (<["fasta" := fasta']>
                 (override "gff3" (arg_gff3 args)
                    (override "fasta" (arg_fasta args) (load_config fs))))))
  | _, _ =>
      abort ("Please specify a FASTA file and GFF3 annotation" +:+
             String newline "(or define defaults in your prex.json config file)") 1
  end.
Proof.
  unfold main_setup.
  rewrite (override_other "gff3" "fasta") by discriminate.
  rewrite !override_same.
  rewrite (override_other "fasta" "gff3") by discriminate. reflexivity.
Qed.

Lemma validate_file_cases filename :
  (usable fs filename /\
   validate_file fs filename =
   ([Stdout ("[ok] " +:+ normalize fs filename)], inl (normalize fs filename))) \/
  (~ usable fs filename /\
   exists msg, validate_file fs filename = ([Stdout ("[!!] " +:+ msg)], inr 1)).
Proof.
  unfold validate_file, usable, abort.
  destruct (isfile fs (normalize fs filename)); cbn [negb].
  - destruct (open_error fs (normalize fs filename)) as [e|].
    + right. split; [intros [_ H]; discriminate|]. eauto.
    + left. auto.
  - right. split; [intros [H _]; discriminate|]. eauto.
Qed.

(** X16.  The start of [main] gets through exactly when a FASTA path and
    a GFF3 path are in effect (from the command line or, failing that,
    from [prex.json]) and both files exist and open.  It then has
    printed the two normalised paths and "loading gff3", and the
    configuration holds the normalised paths. *)
Theorem main_setup_succeeds (out : list event) (config : gmap string string) :
  main_setup fs args = (out, inl config) <->
  exists fasta gff3,
    chosen (arg_fasta args) (load_config fs !! "fasta") = Some fasta /\
    chosen (arg_gff3 args) (load_config fs !! "gff3") = Some gff3 /\
    usable fs fasta /\ usable fs gff3 /\
    out = [Stdout ("[ok] " +:+ normalize fs fasta);
           Stdout ("[ok] " +:+ normalize fs gff3);
           Stdout "[ok] loading gff3"] /\
    config !! "fasta" = Some (normalize fs fasta) /\
    config !! "gff3" = Some (normalize fs gff3) /\
    forall key, key <> "fasta" -> key <> "gff3" ->
                config !! key = load_config fs !! key.
Proof.
  rewrite main_setup_cases.
  destruct (chosen (arg_fasta args) (load_config fs !! "fasta")) as [fasta|];
    [|split; [discriminate | intros (? & ? & ? & _); discriminate]].
  destruct (chosen (arg_gff3 args) (load_config fs !! "gff3")) as [gff3|];
    [|split; [discriminate | intros (? & ? & _ & ? & _); discriminate]].
  destruct (validate_file_cases fasta) as [[Uf ->] | [Nf [mf ->]]];
    [|split; [discriminate | intros (? & ? & [= <-] & _ & U & _); contradiction]].
  destruct (validate_file_cases gff3) as [[Ug ->] | [Ng [mg ->]]];
    [|split; [discriminate | intros (? & ? & _ & [= <-] & _ & U & _); contradiction]].
  cbn [sbind app]. split.
  - intros [= <- <-]. exists fasta, gff3.
    split; [reflexivity|]. split; [reflexivity|].
    split; [exact Uf|]. split; [exact Ug|]. split; [reflexivity|].
    split; [rewrite lookup_insert_ne by discriminate; apply lookup_insert_eq|].
    split; [apply lookup_insert_eq|].
    intros key H1 H2. rewrite !lookup_insert_ne by congruence.
    rewrite !override_other by congruence. reflexivity.
  - intros (f & g & [= <-] & [= <-] & _ & _ & -> & Hcf & Hcg & Hother).
    f_equal. f_equal. apply map_eq. intros key.
    destruct (decide (key = "gff3")) as [->|H2];
      [rewrite lookup_insert_eq; symmetry; exact Hcg|].
    rewrite lookup_insert_ne by congruence.
    destruct (decide (key = "fasta")) as [->|H1];
      [rewrite lookup_insert_eq; symmetry; exact Hcf|].
    rewrite lookup_insert_ne by congruence.
    rewrite !override_other by congruence. symmetry. apply Hother; assumption.
Qed.

(** X17.  Whenever the start of [main] ends the process, the exit status
    is 1, the last line printed is an abort line ([[!!] ...]), and
    "loading gff3" has not been printed: at most the FASTA path was
    announced before. *)
Theorem main_setup_exit (out : list event) (status : Z) :
  main_setup fs args = (out, inr status) ->
  status = 1 /\
  exists msg,
    out = [Stdout ("[!!] " +:+ msg)] \/
    exists fasta, out = [Stdout ("[ok] " +:+ normalize fs fasta);
                         Stdout ("[!!] " +:+ msg)].
Proof.
  rewrite main_setup_cases.
  destruct (chosen (arg_fasta args) (load_config fs !! "fasta")) as [fasta|];
    [|intros [= <- <-]; split; eauto].
  destruct (chosen (arg_gff3 args) (load_config fs !! "gff3")) as [gff3|];
    [|intros [= <- <-]; split; eauto].
  destruct (validate_file_cases fasta) as [[Uf ->] | [Nf [mf ->]]];
    [|cbn [sbind]; intros [= <- <-]; split; eauto].
  destruct (validate_file_cases gff3) as [[Ug ->] | [Ng [mg ->]]];
    cbn [sbind app]; [discriminate|].
  intros [= <- <-]. split; eauto.
Qed.

(** X18.  A path that is in effect for neither the command line nor
    [prex.json] ends the run with the "Please specify" message before any
    file is looked at: the outcome does not depend on the file system. *)
Theorem main_setup_missing_path :
  chosen (arg_fasta args) (load_config fs !! "fasta") = None \/
  chosen (arg_gff3 args) (load_config fs !! "gff3") = None ->
  main_setup fs args =
  ([Stdout ("[!!] Please specify a FASTA file and GFF3 annotation" +:+
            String newline "(or define defaults in your prex.json config file)")],
   inr 1).
Proof.
  intros H. rewrite main_setup_cases.
  destruct (chosen (arg_fasta args) (load_config fs !! "fasta")) as [fasta|];
    [|reflexivity].
  destruct H as [H|H]; [discriminate|]. rewrite H. reflexivity.
Qed.

End Startup.

(** The FASTA file from [prex.json], the annotation from the command
    line. *)
Lemma main_setup_succeeds_witness :
  exists config,
    main_setup sample_fs (mkArguments None (Some "gencode.gff3")) =
    ([Stdout "[ok] /data/hg38.fa"; Stdout "[ok] /data/gencode.gff3";
      Stdout "[ok] loading gff3"], inl config) /\
    config !! "fasta" = Some "/data/hg38.fa" /\
    config !! "gff3" = Some "/data/gencode.gff3".
Proof.
  destruct (main_setup sample_fs (mkArguments None (Some "gencode.gff3")))
    as [out [config|status]] eqn:E; [|vm_compute in E; discriminate E].
  destruct (proj1 (main_setup_succeeds sample_fs _ out config) E)
    as (f & g & Hf & Hg & _ & _ & -> & Hcf & Hcg & _).
  vm_compute in Hf, Hg. injection Hf as <-. injection Hg as <-.
  exists config. split; [reflexivity|]. split; assumption.
Defined.

(** A FASTA file that does not exist. *)
Lemma main_setup_exit_witness :
  snd (main_setup sample_fs (mkArguments (Some "mm10.fa") (Some "gencode.gff3"))) =
  inr 1.
Proof.
  destruct (main_setup sample_fs (mkArguments (Some "mm10.fa") (Some "gencode.gff3")))
    as [out [config|status]] eqn:E; [vm_compute in E; discriminate E|].
  destruct (main_setup_exit sample_fs _ out status E) as [-> _]. reflexivity.
Defined.

(** No annotation on the command line and none in [prex.json]. *)
Lemma main_setup_missing_path_witness :
  main_setup sample_fs (mkArguments (Some "hg38.fa") None) =
  ([Stdout ("[!!] Please specify a FASTA file and GFF3 annotation" +:+
            String newline "(or define defaults in your prex.json config file)")],
   inr 1).
Proof.
  apply main_setup_missing_path. right. vm_compute. reflexivity.
Defined.
